(** * A shallow embedding of pinform: measurement schemas, descriptors,
    name resolution and the InfluxDB query builder.

    Sources: [pinform/__init__.py], [pinform/fields/__init__.py],
    [pinform/tags/__init__.py], [pinform/client.py].

    Python strings are modelled as ASCII [string]s, Python dicts as
    association lists kept in insertion order, exceptions as the [Err]
    branch of [result]. *)

From Stdlib Require Import String Ascii ZArith List Bool Lia.
Import ListNotations.
Open Scope string_scope.
Open Scope Z_scope.

(** ** Python values and exceptions *)

(** The runtime values that reach descriptors, tag dicts and the wire
    format.  Floats and datetimes are carried opaquely (a datetime as its
    microsecond count since 0001-01-01 00:00, see [Window]). *)
Inductive PyVal : Type :=
  | VNone
  | VInt (z : Z)
  | VFloat (bits : Z)
  | VBool (b : bool)
  | VStr (s : string)
  | VDatetime (us : Z)
  | VObj (type_name : string).

(** The exceptions raised by the modelled code. *)
Inductive PyExc : Type :=
  | TypeError
  | ValueError
  | AssertionError
  | KeyError (k : string)
  | IndexError
  | OverflowError
  (** [get_name]: [name_resolution_tags is None] while the template needs
      the tag. *)
  | NullResolutionTags (tag : string)
  (** [get_name]: the tag is not a key of [name_resolution_tags]. *)
  | TagNotProvided (tag : string)
  (** any other [raise Exception(...)], named by its message. *)
  | GenericException (msg : string).

Inductive result (A : Type) : Type :=
  | Ok (a : A)
  | Err (e : PyExc).
Arguments Ok {A} a.
Arguments Err {A} e.

Definition bind_result {A B} (m : result A) (k : A -> result B) : result B :=
  match m with Ok a => k a | Err e => Err e end.

Notation "x <- m ;; k" := (bind_result m (fun x => k))
  (at level 61, m at next level, right associativity).

Definition is_err {A} (r : result A) : bool :=
  match r with Ok _ => false | Err _ => true end.

(** ** Python dicts with string keys *)

Definition dict := list (string * PyVal).

Fixpoint dict_get (d : dict) (k : string) : option PyVal :=
  match d with
  | [] => None
  | (k', v) :: d' => if String.eqb k k' then Some v else dict_get d' k
  end.

Definition dict_has (d : dict) (k : string) : bool :=
  match dict_get d k with Some _ => true | None => false end.

(** [d[k] = v]: overwrite in place when [k] is present, else append. *)
Fixpoint dict_set (d : dict) (k : string) (v : PyVal) : dict :=
  match d with
  | [] => [(k, v)]
  | (k', v') :: d' =>
      if String.eqb k k' then (k', v) :: d' else (k', v') :: dict_set d' k v
  end.

(** ** Characters and string helpers *)

Definition chr (n : nat) : string := String (ascii_of_nat n) EmptyString.
Definition dq : string := chr 34.      (* the double quote character *)
Definition sq : string := chr 39.      (* the single quote character *)

Fixpoint join (sep : string) (l : list string) : string :=
  match l with
  | [] => ""
  | [x] => x
  | x :: l' => x ++ sep ++ join sep l'
  end.

(** [str(n)] for a Python int. *)
Fixpoint digits_of_pos (fuel : nat) (n : Z) (acc : string) : string :=
  match fuel with
  | O => acc
  | S fuel' =>
      let d := String (ascii_of_nat (48 + Z.to_nat (n mod 10))) EmptyString in
      if n <? 10 then d ++ acc else digits_of_pos fuel' (n / 10) (d ++ acc)
  end.

Definition py_str_int (z : Z) : string :=
  let body := digits_of_pos (S (Z.to_nat (Z.log2_up (Z.abs z + 1)))) (Z.abs z) "" in
  if z <? 0 then "-" ++ body else body.

(** ** Name resolution: [Measurement.get_name] *)

(** [re.findall('\((.*?)\)', s)]: the non-greedy group captures the text
    up to the first [')'] after a ['(']; [.] does not match a newline, so
    a newline before the closing parenthesis makes the match at that
    ['('] fail.  No ['('] between it and the newline can start a match
    either (the same newline stops it), so the scan resumes after the
    newline.  [acc] holds the captured text so far when a match is open. *)
Fixpoint findall_go (s : string) (acc : option string) : list string :=
  match s with
  | EmptyString => []
  | String c rest =>
      match acc with
      | None =>
          if Ascii.eqb c "("%char then findall_go rest (Some "")
          else findall_go rest None
      | Some a =>
          if Ascii.eqb c ")"%char then a :: findall_go rest None
          else if Ascii.eqb c (ascii_of_nat 10) then findall_go rest None
          else findall_go rest (Some (a ++ String c EmptyString))
      end
  end.

Definition name_tags_of (template : string) : list string :=
  findall_go template None.

(** The loop of [get_name].  [measurement_name.replace(...)] is evaluated
    for a present tag (it raises [TypeError] unless the value is a [str]),
    but its result is not assigned back. *)
Fixpoint get_name_loop (name_tags : list string)
    (name_resolution_tags : option dict) : result unit :=
  match name_tags with
  | [] => Ok tt
  | name_tag :: rest =>
      match name_resolution_tags with
      | None => Err (NullResolutionTags name_tag)
      | Some tags =>
          match dict_get tags name_tag with
          | Some (VStr _) => get_name_loop rest name_resolution_tags
          | Some _ => Err TypeError
          | None => Err (TagNotProvided name_tag)
          end
      end
  end.

(** [Measurement.get_name(cls, name_resolution_tags)], on the class's
    [measurement_name]. *)
Definition get_name (measurement_name : string)
    (name_resolution_tags : option dict) : result string :=
  _ <- get_name_loop (name_tags_of measurement_name) name_resolution_tags ;;
  Ok measurement_name.

(** The resolution the spec describes (used only to state what [get_name]
    is claimed to compute): every placeholder [(t)] replaced, in turn, by
    the tag's value, as [str.replace] would. *)
Fixpoint replace_all_go (fuel : nat) (pat rep s : string) : string :=
  match fuel with
  | O => s
  | S fuel' =>
      match s with
      | EmptyString => EmptyString
      | String c rest =>
          if String.prefix pat s
          then rep ++ replace_all_go fuel' pat rep
                        (substring (String.length pat) (String.length s) s)
          else String c (replace_all_go fuel' pat rep rest)
      end
  end.

Definition py_replace (s pat rep : string) : string :=
  replace_all_go (S (String.length s)) pat rep s.

Fixpoint spec_resolve (name_tags : list string) (tags : dict) (s : string)
    : string :=
  match name_tags with
  | [] => s
  | t :: rest =>
      match dict_get tags t with
      | Some (VStr v) => spec_resolve rest tags (py_replace s ("(" ++ t ++ ")") v)
      | _ => spec_resolve rest tags s
      end
  end.

(** ** The aggregation catalog: [AggregationMode] *)

Inductive AggregationMode : Type :=
  | AM_NONE | AM_MEAN | AM_MEDIAN | AM_COUNT | AM_MIN | AM_MAX | AM_SUM
  | AM_FIRST | AM_LAST | AM_SPREAD | AM_STDDEV.

Definition agg_get_str (m : AggregationMode) : string :=
  match m with
  | AM_NONE => ""
  | AM_MEAN => "mean"
  | AM_MEDIAN => "median"
  | AM_COUNT => "count"
  | AM_MIN => "min"
  | AM_MAX => "max"
  | AM_SUM => "sum"
  | AM_FIRST => "first"
  | AM_LAST => "last"
  | AM_SPREAD => "spread"
  | AM_STDDEV => "stddev"
  end.

Definition get_result_field_name (m : AggregationMode) (field_name : string)
    : string :=
  match m with
  | AM_NONE => field_name
  | _ => agg_get_str m ++ "_" ++ field_name
  end.

Definition aggregate_field (m : AggregationMode) (field_name : string)
    : string :=
  match m with
  | AM_NONE => field_name
  | _ =>
      let str_value := agg_get_str m in
      str_value ++ "(" ++ field_name ++ ") AS " ++ str_value ++ "_" ++ field_name
  end.


(** ** Descriptors: [Field] and its subclasses, [Tag] *)

Inductive FieldType : Type := INTEGER | FLOAT | BOOLEAN | STRING.

(** The concrete class of a field descriptor, with the options the
    multiple-choice and enum fields keep after their constructor checked
    them ([self.options = set(options)]). *)
Inductive FieldClass : Type :=
  | PlainField (t : FieldType)
  | IntegerField
  | FloatField
  | BooleanField
  | StringField
  | MultipleChoiceStringField (options : list string)
  | EnumStringField (options : list string)
  | MultipleChoiceIntegerField (options : list Z)
  | EnumIntegerField (options : list Z).

Record Field : Type := mkField {
  f_class : FieldClass;
  f_name : string;
  f_null : bool }.

Record Tag : Type := mkTag {
  t_name : string;
  t_null : bool }.

Definition field_type (f : Field) : FieldType :=
  match f_class f with
  | PlainField t => t
  | IntegerField | MultipleChoiceIntegerField _ | EnumIntegerField _ => INTEGER
  | FloatField => FLOAT
  | BooleanField => BOOLEAN
  | StringField | MultipleChoiceStringField _ | EnumStringField _ => STRING
  end.

(** [isinstance(value, int)]: [bool] is a subclass of [int]. *)
Definition isinstance_int (v : PyVal) : bool :=
  match v with VInt _ | VBool _ => true | _ => false end.
Definition isinstance_float (v : PyVal) : bool :=
  match v with VFloat _ => true | _ => false end.
Definition isinstance_bool (v : PyVal) : bool :=
  match v with VBool _ => true | _ => false end.
Definition isinstance_str (v : PyVal) : bool :=
  match v with VStr _ => true | _ => false end.
Definition is_none (v : PyVal) : bool :=
  match v with VNone => true | _ => false end.

(** [value in self.options] for a set of ints ([True == 1]). *)
Definition in_int_options (v : PyVal) (options : list Z) : bool :=
  match v with
  | VInt z => existsb (Z.eqb z) options
  | VBool b => existsb (Z.eqb (if b then 1 else 0)) options
  | _ => false
  end.
Definition in_str_options (v : PyVal) (options : list string) : bool :=
  match v with VStr s => existsb (String.eqb s) options | _ => false end.

(** [Field.__set__]: the null assertion, then [instance._data[self.name] = value]
    (the instance is never [None] on an assignment through an instance). *)
Definition base_field_set (f : Field) (data : dict) (v : PyVal) : result dict :=
  if negb (f_null f) && is_none v then Err AssertionError
  else Ok (dict_set data (f_name f) v).

(** The [__set__] of each subclass: its type check, its option check, then
    [super().__set__]. *)
Definition field_set (f : Field) (data : dict) (v : PyVal) : result dict :=
  let typed (ok : PyVal -> bool) :=
    if negb (is_none v) && negb (ok v) then Err TypeError
    else base_field_set f data v in
  match f_class f with
  | PlainField _ => base_field_set f data v
  | IntegerField => typed isinstance_int
  | FloatField => typed isinstance_float
  | BooleanField => typed isinstance_bool
  | StringField => typed isinstance_str
  | MultipleChoiceStringField opts | EnumStringField opts =>
      if negb (is_none v) && negb (isinstance_str v) then Err TypeError
      else if negb (is_none v) && negb (in_str_options v opts) then Err ValueError
      else base_field_set f data v
  | MultipleChoiceIntegerField opts | EnumIntegerField opts =>
      if negb (is_none v) && negb (isinstance_int v) then Err TypeError
      else if negb (is_none v) && negb (in_int_options v opts) then Err ValueError
      else base_field_set f data v
  end.

(** [Tag.__set__]: only the null assertion. *)
Definition tag_set (t : Tag) (data : dict) (v : PyVal) : result dict :=
  if negb (t_null t) && is_none v then Err AssertionError
  else Ok (dict_set data (t_name t) v).

(** A descriptor, field or tag, as the spec's Descriptor. *)
Inductive Descriptor : Type :=
  | DField (f : Field)
  | DTag (t : Tag).

Definition desc_set (d : Descriptor) (data : dict) (v : PyVal) : result dict :=
  match d with
  | DField f => field_set f data v
  | DTag t => tag_set t data v
  end.

(** The spec's valueType of a descriptor: a field's [field_type]; tags are
    string-valued. *)
Definition value_type (d : Descriptor) : FieldType :=
  match d with DField f => field_type f | DTag _ => STRING end.

(** The runtime type of a value, when it is one of the four value types. *)
Definition runtime_type (v : PyVal) : option FieldType :=
  match v with
  | VInt _ => Some INTEGER
  | VFloat _ => Some FLOAT
  | VBool _ => Some BOOLEAN
  | VStr _ => Some STRING
  | _ => None
  end.

Definition FieldType_eqb (a b : FieldType) : bool :=
  match a, b with
  | INTEGER, INTEGER | FLOAT, FLOAT | BOOLEAN, BOOLEAN | STRING, STRING => true
  | _, _ => false
  end.

Definition type_disagrees (d : Descriptor) (v : PyVal) : bool :=
  match runtime_type v with
  | Some t => negb (FieldType_eqb t (value_type d))
  | None => true
  end.

(** ** Measurement classes and instances *)

(** An entry of a class [__dict__]. *)
Inductive ClassAttr : Type :=
  | CField (f : Field)
  | CTag (t : Tag)
  | COther.

(** A measurement class after [MeasurementMeta.__new__]: its
    [measurement_name] and its own [__dict__], in insertion order. *)
Record MClass : Type := mkMClass {
  measurement_name : string;
  class_dict : list (string * ClassAttr) }.

(** The attributes of a class body as [MeasurementMeta.__new__] receives
    them: a descriptor's name may be left [None]. *)
Inductive BodyAttr : Type :=
  | BField (cls : FieldClass) (name : option string) (null : bool)
  | BTag (name : option string) (null : bool)
  | BOther.

Fixpoint cdict_set (d : list (string * ClassAttr)) (k : string) (a : ClassAttr)
    : list (string * ClassAttr) :=
  match d with
  | [] => [(k, a)]
  | (k', a') :: d' =>
      if String.eqb k k' then (k', a) :: d' else (k', a') :: cdict_set d' k a
  end.

Fixpoint cdict_get (d : list (string * ClassAttr)) (k : string) : option ClassAttr :=
  match d with
  | [] => None
  | (k', a) :: d' => if String.eqb k k' then Some a else cdict_get d' k
  end.

(** The loop of [MeasurementMeta.__new__] over [attrs]: a descriptor with
    no name takes the attribute's name and is set on the class under its
    own name. *)
Fixpoint meta_attrs (d : list (string * ClassAttr)) (attrs : list (string * BodyAttr))
    : list (string * ClassAttr) :=
  match attrs with
  | [] => d
  | (attr_name, BField c n nl) :: rest =>
      let nm := match n with Some x => x | None => attr_name end in
      meta_attrs (cdict_set d nm (CField (mkField c nm nl))) rest
  | (attr_name, BTag n nl) :: rest =>
      let nm := match n with Some x => x | None => attr_name end in
      meta_attrs (cdict_set d nm (CTag (mkTag nm nl))) rest
  | (attr_name, BOther) :: rest => meta_attrs (cdict_set d attr_name COther) rest
  end.

(** [MeasurementMeta.__new__]: [Meta.measurement_name] when given, else the
    snake-cased class name (passed in as [default_name]); the class dict
    starts with [__module__] and [measurement_name] and ends with
    [__init__]. *)
Definition meta_new (default_name : string) (meta_name : option string)
    (attrs : list (string * BodyAttr)) : MClass :=
  let mname := match meta_name with Some m => m | None => default_name end in
  let d0 := [("__module__", COther); ("measurement_name", COther)] in
  mkMClass mname (cdict_set (meta_attrs d0 attrs) "__init__" COther).

Record Instance : Type := mkInstance {
  i_cls : MClass;
  i_time_point : PyVal;
  i_data : dict }.

(** [my_custom_init]: the loop over [init_kwargs].  [setattr] on a key
    whose class attribute is a descriptor goes through that descriptor's
    [__set__]. *)
Fixpoint init_kwargs_loop (cls : MClass) (tp : PyVal) (data : dict)
    (kwargs : list (string * PyVal)) : result Instance :=
  match kwargs with
  | [] => Ok (mkInstance cls tp data)
  | (key, value) :: rest =>
      match cdict_get (class_dict cls) key with
      | Some (CField f) =>
          data' <- field_set f data value ;; init_kwargs_loop cls tp data' rest
      | Some (CTag t) =>
          data' <- tag_set t data value ;; init_kwargs_loop cls tp data' rest
      | _ =>
          if String.eqb key "time_point" then
            match value with
            | VDatetime _ => init_kwargs_loop cls value data rest
            | _ => Err (GenericException "time_point given is not instance of datetime.datetime")
            end
          else Err (GenericException "value given in instance initialization but was not defined in model as Tag or Field")
      end
  end.

(** [cls(time_point, **kwargs)].  A keyword [time_point] binds to the
    positional parameter, which is already given: the call raises
    [TypeError] before the body runs (so the loop's [time_point] branch is
    never reached).  The body sets [_data = {}] and then
    [instance_self.time_point = time_point]: when the class declares a
    field or tag under [time_point], that assignment goes through its
    [__set__] (checks included) into [_data]; any other class attribute
    there is taken to be a plain value or a method, which the instance
    attribute shadows.  [i_time_point] is the value
    passed; for classes built by [MeasurementMeta.__new__] it is also what
    the descriptor's [__get__] reads back, as no other keyword writes
    [_data['time_point']].  The class is a direct subclass of
    [Measurement], whose own dict declares no descriptor. *)
Definition my_custom_init (cls : MClass) (time_point : PyVal)
    (kwargs : list (string * PyVal)) : result Instance :=
  if existsb (fun kv => String.eqb (fst kv) "time_point") kwargs then Err TypeError
  else
    data <- match cdict_get (class_dict cls) "time_point" with
            | Some (CField f) => field_set f [] time_point
            | Some (CTag t) => tag_set t [] time_point
            | _ => Ok []
            end ;;
    init_kwargs_loop cls time_point data kwargs.

(** [instance.__getattribute__(name)] for a descriptor: [instance._data[name]]. *)
Definition data_get (i : Instance) (name : string) : result PyVal :=
  match dict_get (i_data i) name with
  | Some v => Ok v
  | None => Err (KeyError name)
  end.

(** [get_fields_and_field_values_as_dict]. *)
Fixpoint fields_and_values (i : Instance) (cd : list (string * ClassAttr)) (acc : list (Field * PyVal))
    : result (list (Field * PyVal)) :=
  match cd with
  | [] => Ok (rev acc)
  | (_, CField f) :: rest =>
      v <- data_get i (f_name f) ;; fields_and_values i rest ((f, v) :: acc)
  | _ :: rest => fields_and_values i rest acc
  end.

(** [get_tags_and_tag_values_as_dict]. *)
Fixpoint tags_and_values (i : Instance) (cd : list (string * ClassAttr)) (acc : list (Tag * PyVal))
    : result (list (Tag * PyVal)) :=
  match cd with
  | [] => Ok (rev acc)
  | (_, CTag t) :: rest =>
      v <- data_get i (t_name t) ;; tags_and_values i rest ((t, v) :: acc)
  | _ :: rest => tags_and_values i rest acc
  end.

(** [get_field_values_as_dict]. *)
Fixpoint field_values_dict (i : Instance) (cd : list (string * ClassAttr)) (acc : dict)
    : result dict :=
  match cd with
  | [] => Ok acc
  | (_, CField f) :: rest =>
      v <- data_get i (f_name f) ;; field_values_dict i rest (dict_set acc (f_name f) v)
  | _ :: rest => field_values_dict i rest acc
  end.

(** [get_tag_values_as_dict]. *)
Fixpoint tag_values_dict (i : Instance) (cd : list (string * ClassAttr)) (acc : dict)
    : result dict :=
  match cd with
  | [] => Ok acc
  | (_, CTag t) :: rest =>
      v <- data_get i (t_name t) ;; tag_values_dict i rest (dict_set acc (t_name t) v)
  | _ :: rest => tag_values_dict i rest acc
  end.

Fixpoint check_fields_nonnull (l : list (Field * PyVal)) : result unit :=
  match l with
  | [] => Ok tt
  | (f, v) :: rest =>
      if negb (f_null f) && is_none v then Err ValueError else check_fields_nonnull rest
  end.

Fixpoint check_tags_nonnull (l : list (Tag * PyVal)) : result unit :=
  match l with
  | [] => Ok tt
  | (t, v) :: rest =>
      if negb (t_null t) && is_none v then Err ValueError else check_tags_nonnull rest
  end.

(** The dict returned by [get_cli_format]: its four keys. *)
Record WireRecord : Type := mkWire {
  w_measurement : string;
  w_tags : dict;
  w_time : string;
  w_fields : dict }.

Section CliFormat.
(** [str(self.time_point)]: Python's rendering of the timestamp. *)
Variable py_str : PyVal -> string.

Definition get_cli_format (i : Instance) : result WireRecord :=
  let cd := class_dict (i_cls i) in
  fv <- fields_and_values i cd [] ;;
  _ <- check_fields_nonnull fv ;;
  tv <- tags_and_values i cd [] ;;
  _ <- check_tags_nonnull tv ;;
  tags_dict <- tag_values_dict i cd [] ;;
  measurement_name <- get_name (measurement_name (i_cls i)) (Some tags_dict) ;;
  fields_dict <- field_values_dict i cd [] ;;
  Ok (mkWire measurement_name tags_dict (py_str (i_time_point i)) fields_dict).
End CliFormat.

(** The descriptor a class declares under a key, as [my_custom_init] finds
    it ([isinstance(tmp_class_dict.get(k), Field)] or [Tag]). *)
Definition class_desc (cls : MClass) (k : string) : option Descriptor :=
  match cdict_get (class_dict cls) k with
  | Some (CField f) => Some (DField f)
  | Some (CTag t) => Some (DTag t)
  | _ => None
  end.

Definition desc_name (d : Descriptor) : string :=
  match d with DField f => f_name f | DTag t => t_name t end.

(** Every descriptor of the class dict sits under its own name, as
    [MeasurementMeta.__new__] puts it there. *)
Definition entry_wf (ka : string * ClassAttr) : bool :=
  match snd ka with
  | CField f => String.eqb (f_name f) (fst ka)
  | CTag t => String.eqb (t_name t) (fst ka)
  | COther => true
  end.

Definition class_wf (cls : MClass) : bool := forallb entry_wf (class_dict cls).

(** ** Window alignment: [AggregationTimeUnit], [AggregationWindowIndex] *)

Module Window.

(** A [datetime.datetime] is its microsecond count since
    0001-01-01 00:00:00 (of its own wall clock; the tzinfo of an aware
    datetime is kept unchanged by [+ timedelta]); a [timedelta] is its
    microsecond count. *)
Definition us_per_second : Z := 1000000.
Definition us_per_minute : Z := 60 * us_per_second.
Definition us_per_hour : Z := 60 * us_per_minute.
Definition us_per_day : Z := 24 * us_per_hour.

(** [datetime.MAXYEAR] is 9999: the last representable instant is
    9999-12-31 23:59:59.999999, day 3652059 counting 0001-01-01 as day 1. *)
Definition max_ordinal : Z := 3652059.
Definition datetime_max : Z := max_ordinal * us_per_day - 1.

Definition valid_datetime (t : Z) : bool := (0 <=? t) && (t <=? datetime_max).

(** [timedelta(...)]: normalised days must lie in [-999999999, 999999999]. *)
Definition max_days : Z := 999999999.

Definition mk_timedelta (us : Z) : result Z :=
  if (- max_days * us_per_day <=? us) && (us <? (max_days + 1) * us_per_day)
  then Ok us else Err OverflowError.

(** [datetime + timedelta]: "result out of range" outside the datetime range. *)
Definition dt_add (t delta : Z) : result Z :=
  if valid_datetime (t + delta) then Ok (t + delta) else Err OverflowError.

Inductive AggregationTimeUnit : Type := SECOND | MINUTE | HOUR | DAY.

Definition unit_us (u : AggregationTimeUnit) : Z :=
  match u with
  | SECOND => us_per_second
  | MINUTE => us_per_minute
  | HOUR => us_per_hour
  | DAY => us_per_day
  end.

(** [AggregationTimeUnit.from_str]. *)
Definition from_str (unit_str : ascii) : result AggregationTimeUnit :=
  if Ascii.eqb unit_str "m"%char then Ok MINUTE
  else if Ascii.eqb unit_str "d"%char then Ok DAY
  else if Ascii.eqb unit_str "h"%char then Ok HOUR
  else if Ascii.eqb unit_str "s"%char then Ok SECOND
  else Err (GenericException "invalid time unit").

(** *** Python's [int(str)] *)

(** A character is a Latin-1 code point (a Python [str] all of whose
    characters are below U+0100).  [int()] strips what [Py_ISSPACE]
    accepts (space and [\t\n\v\f\r]); in a non-ASCII string it first
    turns every Unicode space into a space, which in this range adds
    U+0085 and U+00A0.  The separators U+001C..U+001F are kept and
    refused. *)
Definition is_py_space (c : ascii) : bool :=
  let n := nat_of_ascii c in
  (Nat.leb 9 n && Nat.leb n 13) || Nat.eqb n 32 || Nat.eqb n 133 || Nat.eqb n 160.

Definition is_digit (c : ascii) : bool :=
  let n := nat_of_ascii c in Nat.leb 48 n && Nat.leb n 57.

Definition digit_val (c : ascii) : Z := Z.of_nat (nat_of_ascii c) - 48.

Fixpoint lstrip (l : list ascii) : list ascii :=
  match l with
  | c :: r => if is_py_space c then lstrip r else l
  | [] => []
  end.

Definition strip (l : list ascii) : list ascii := rev (lstrip (rev (lstrip l))).

(** Decimal digits with single underscores between digits. *)
Fixpoint digits_from (l : list ascii) (acc : Z) (after_us : bool) : option Z :=
  match l with
  | [] => if after_us then None else Some acc
  | c :: r =>
      if is_digit c then digits_from r (acc * 10 + digit_val c) false
      else if Ascii.eqb c "_"%char && negb after_us then digits_from r acc true
      else None
  end.

Definition parse_digits (l : list ascii) : option Z :=
  match l with
  | c :: r => if is_digit c then digits_from r (digit_val c) false else None
  | [] => None
  end.

(** [sys.get_int_max_str_digits()]: CPython's default limit on the
    number of digits [int()] converts (underscores not counted). *)
Definition max_str_digits : nat := 4300.

Definition count_digits (l : list ascii) : nat := length (filter is_digit l).

Definition py_int (s : string) : result Z :=
  let l := strip (list_ascii_of_string s) in
  let r := match l with
           | c :: rest =>
               if Ascii.eqb c "+"%char then parse_digits rest
               else if Ascii.eqb c "-"%char then option_map Z.opp (parse_digits rest)
               else parse_digits l
           | [] => None
           end in
  match r with
  | Some z => if Nat.ltb max_str_digits (count_digits l) then Err ValueError else Ok z
  | None => Err ValueError
  end.

(** [AggregationWindowIndex.get_value_and_unit]: [s[-1]] (an [IndexError]
    on the empty string), then [int(s[0:len(s)-1])], then [from_str]. *)
Definition get_value_and_unit (group_by_time_str : string)
    : result (Z * AggregationTimeUnit) :=
  let n := String.length group_by_time_str in
  match String.get (n - 1) group_by_time_str with
  | None => Err IndexError
  | Some unit =>
      value <- py_int (substring 0 (n - 1) group_by_time_str) ;;
      u <- from_str unit ;;
      Ok (value, u)
  end.

Inductive AggregationWindowIndex : Type := START | CENTER | END.

(** [timedelta(<unit>=value / 2.0)]: the half is exact whenever the
    timedelta is representable (every bound is below 2^53 in every unit,
    and each unit is an even number of microseconds), so the offset is
    [value * unit / 2] microseconds. *)
Definition get_time_point_of_window (w : AggregationWindowIndex)
    (window_start_time : Z) (group_by_time_str : string) : result Z :=
  match w with
  | START => Ok window_start_time
  | CENTER =>
      vu <- get_value_and_unit group_by_time_str ;;
      let (value, unit) := vu in
      delta <- mk_timedelta (value * unit_us unit / 2) ;;
      dt_add window_start_time delta
  | END =>
      vu <- get_value_and_unit group_by_time_str ;;
      let (value, unit) := vu in
      delta <- mk_timedelta (value * unit_us unit) ;;
      dt_add window_start_time delta
  end.

(** The interval grammar [<positive integer><unit>], unit in [d h m s]
    (the spec's [^[1-9][0-9]*[dhms]$]): [digits] and [unit] as parts. *)
Definition is_unit_char (c : ascii) : bool :=
  Ascii.eqb c "d"%char || Ascii.eqb c "h"%char
  || Ascii.eqb c "m"%char || Ascii.eqb c "s"%char.

Fixpoint all_digits (l : list ascii) : bool :=
  match l with [] => true | c :: r => is_digit c && all_digits r end.

Definition grammar_ok (s : string) : bool :=
  match rev (list_ascii_of_string s) with
  | u :: rds =>
      match rev rds with
      | c :: _ =>
          negb (Ascii.eqb c "0"%char) && all_digits (rev rds) && is_unit_char u
      | [] => false
      end
  | [] => false
  end.

(** The value of a decimal digit string. *)
Fixpoint dec_value_acc (l : list ascii) (acc : Z) : Z :=
  match l with [] => acc | c :: r => dec_value_acc r (acc * 10 + digit_val c) end.

End Window.

(** ** The query builder: [InfluxClient] *)

Module Client.
Import Window.

Inductive FillMode : Type := FM_NULL | FM_PREVIOUS | FM_NUMBER | FM_NONE | FM_LINEAR.

Definition fill_get_str (m : FillMode) : string :=
  match m with
  | FM_NULL => "null"
  | FM_PREVIOUS => "previous"
  | FM_NUMBER => "number"
  | FM_NONE => "none"
  | FM_LINEAR => "linear"
  end.

(** [time_range]: a [datetime.date] (given by the datetime of its
    midnight), or a pair of optional datetimes. *)
Inductive TimeRange : Type :=
  | TRDay (day : Z)
  | TRPair (since : option Z) (until : option Z).

(** What the client sends to the store, in order. *)
Inductive Request : Type :=
  | RQuery (q : string)
  | RWrite (points : list WireRecord).

(** A client call: its outcome and the requests it issued. *)
Definition Call (A : Type) : Type := (result A * list Request)%type.

(** [tags] as the client receives them: [Dict[str, str]]. *)
Definition tags_dict (tags : list (string * string)) : dict :=
  map (fun kv => (fst kv, VStr (snd kv))) tags.

Section Queries.
(** [rfc3339.format(dt, use_system_timezone=False)]. *)
Variable rfc3339_format : Z -> string.
(** [str(self.time_point)], for the write path. *)
Variable py_str : PyVal -> string.

(** [""{tag_name}"='{tag_value}'"]. *)
Definition tag_condition (kv : string * string) : string :=
  dq ++ fst kv ++ dq ++ "=" ++ sq ++ snd kv ++ sq.

(** The [and_conditions_list] shared by [load_points] and
    [get_fields_as_series]. *)
Definition and_conditions (tags : option (list (string * string)))
    (time_range : option TimeRange) : result (list string) :=
  let tag_conds := match tags with
                   | Some ts => map tag_condition ts
                   | None => []
                   end in
  match time_range with
  | None => Ok tag_conds
  | Some (TRDay d) =>
      next_day <- dt_add d us_per_day ;;
      Ok (app tag_conds ["time >= " ++ sq ++ rfc3339_format d ++ sq ++ " and time < "
                          ++ sq ++ rfc3339_format next_day ++ sq])
  | Some (TRPair since until) =>
      let c1 := match since with
                | Some s => ["time >= " ++ sq ++ rfc3339_format s ++ sq]
                | None => []
                end in
      let c2 := match until with
                | Some u => ["time <= " ++ sq ++ rfc3339_format u ++ sq]
                | None => []
                end in
      Ok (app tag_conds (app c1 c2))
  end.

Definition where_clause (conds : list string) : string :=
  match conds with
  | [] => ""
  | _ => " WHERE " ++ join " AND " conds
  end.

Definition limit_clause (limit : option Z) : string :=
  match limit with Some n => " LIMIT " ++ py_str_int n | None => "" end.

(** The query string of [load_points]. *)
Definition load_points_query (cls : MClass) (tags : option (list (string * string)))
    (time_range : option TimeRange) (limit : option Z) : result string :=
  name <- get_name (measurement_name cls) (option_map tags_dict tags) ;;
  conds <- and_conditions tags time_range ;;
  Ok ("SELECT * FROM " ++ name ++ where_clause conds ++ limit_clause limit ++ ";").

(** [load_points]: the query is sent once its string is built; the
    mapping of the returned rows back to instances is not modelled. *)
Definition load_points (cls : MClass) (tags : option (list (string * string)))
    (time_range : option TimeRange) (limit : option Z) : Call string :=
  match load_points_query cls tags time_range limit with
  | Ok q => (Ok q, [RQuery q])
  | Err e => (Err e, [])
  end.

(** The fill mode / fill number assertions of [get_fields_as_series]. *)
Definition fill_check (fill_mode : option FillMode) (fill_number : option Z)
    : result unit :=
  match fill_mode with
  | Some FM_NUMBER =>
      match fill_number with Some _ => Ok tt | None => Err AssertionError end
  | _ =>
      match fill_number with Some _ => Err AssertionError | None => Ok tt end
  end.

(** [re.compile('^[1-9][0-9]*[dhms]$').match(s)]: [$] also matches
    before a final newline. *)
Definition group_by_regex_match (s : string) : bool :=
  grammar_ok s
  || (let l := list_ascii_of_string s in
      match rev l with
      | c :: r => Ascii.eqb c (ascii_of_nat 10) && grammar_ok (string_of_list_ascii (rev r))
      | [] => false
      end).

(** [field_name in Measurement.get_fields(cls)]. *)
Definition has_field (cls : MClass) (field_name : string) : bool :=
  existsb (fun ka => match snd ka with
                     | CField f => String.eqb (f_name f) field_name
                     | _ => false
                     end) (class_dict cls).

(** The loop over [field_aggregations]: the select [properties] and the
    [aggregated_field_names]. *)
Fixpoint aggregation_items (cls : MClass)
    (fas : list (string * option (list AggregationMode)))
    : result (list string * list string) :=
  match fas with
  | [] => Ok ([], [])
  | (field_name, modes) :: rest =>
      if negb (has_field cls field_name)
      then Err (GenericException "Field name not found in measurement fields")
      else
        let here := match modes with
                    | None | Some [] => ([field_name], [field_name])
                    | Some ms => (map (fun m => aggregate_field m field_name) ms,
                                  map (fun m => get_result_field_name m field_name) ms)
                    end in
        pr <- aggregation_items cls rest ;;
        Ok (app (fst here) (fst pr), app (snd here) (snd pr))
  end.

Definition fill_clause (fill_mode : option FillMode) (fill_number : option Z) : string :=
  match fill_mode with
  | None => ""
  | Some FM_NUMBER =>
      " FILL(" ++ match fill_number with Some n => py_str_int n | None => "None" end ++ ")"
  | Some m => " FILL(" ++ fill_get_str m ++ ")"
  end.

(** The checks of [get_fields_as_series] and its query string, with the
    result column names. *)
Definition get_fields_as_series_query (cls : MClass)
    (field_aggregations : option (list (string * option (list AggregationMode))))
    (tags : option (list (string * string))) (group_by_time_interval : option string)
    (fill_mode : option FillMode) (fill_number : option Z)
    (time_range : option TimeRange) (limit : option Z)
    : result (string * list string) :=
  fas <- match field_aggregations with
         | None | Some [] => Err (GenericException "Null or invalid field aggregations")
         | Some fas => Ok fas
         end ;;
  _ <- fill_check fill_mode fill_number ;;
  _ <- match group_by_time_interval with
       | Some g => if group_by_regex_match g then Ok tt else Err AssertionError
       | None => Ok tt
       end ;;
  measurement_name <- get_name (measurement_name cls) (option_map tags_dict tags) ;;
  pn <- aggregation_items cls fas ;;
  let (properties, aggregated_field_names) := pn in
  conds <- and_conditions tags time_range ;;
  let group_by := match group_by_time_interval with
                  | Some g => " GROUP BY time(" ++ g ++ ")"
                  | None => ""
                  end in
  Ok ("SELECT " ++ join ", " properties ++ " FROM " ++ measurement_name
      ++ where_clause conds ++ group_by ++ limit_clause limit
      ++ fill_clause fill_mode fill_number, aggregated_field_names).

(** [get_fields_as_series]: the query is sent once built; it returns the
    result column names (turning rows into series, with the window
    alignment of each bucket, is not modelled). *)
Definition get_fields_as_series (cls : MClass)
    (field_aggregations : option (list (string * option (list AggregationMode))))
    (tags : option (list (string * string))) (group_by_time_interval : option string)
    (fill_mode : option FillMode) (fill_number : option Z)
    (time_range : option TimeRange) (limit : option Z) : Call (list string) :=
  match get_fields_as_series_query cls field_aggregations tags group_by_time_interval
          fill_mode fill_number time_range limit with
  | Ok (q, names) => (Ok names, [RQuery q])
  | Err e => (Err e, [])
  end.

(** [get_distinct_existing_tag_values]: its query is sent once built. *)
Definition get_distinct_existing_tag_values (tag_name : string)
    (measurement : option MClass) (name_resolution_tags : option (list (string * string)))
    : Call string :=
  let from := match measurement with
              | None => Ok ""
              | Some cls =>
                  n <- get_name (measurement_name cls)
                         (option_map tags_dict name_resolution_tags) ;;
                  Ok (" from " ++ n)
              end in
  match from with
  | Ok f =>
      let q := "show tag values" ++ f ++ " " ++ "with key = " ++ dq ++ tag_name ++ dq in
      (Ok q, [RQuery q])
  | Err e => (Err e, [])
  end.

Fixpoint cli_formats (items : list Instance) : result (list WireRecord) :=
  match items with
  | [] => Ok []
  | i :: rest => w <- get_cli_format py_str i ;; ws <- cli_formats rest ;; Ok (w :: ws)
  end.

(** [save_points]: every item is serialised before the single write. *)
Definition save_points (items : list Instance) : Call unit :=
  match cli_formats items with
  | Ok ws => (Ok tt, [RWrite ws])
  | Err e => (Err e, [])
  end.
End Queries.

End Client.

(** ** Helper lemmas *)

Lemma str_app_assoc (a b c : string) : (a ++ b) ++ c = a ++ (b ++ c).
Proof. induction a as [|x a IH]; simpl; [reflexivity | rewrite IH; reflexivity]. Qed.

Lemma dict_get_set (d : dict) (k k' : string) (v : PyVal) :
  dict_get (dict_set d k v) k' = if String.eqb k' k then Some v else dict_get d k'.
Proof.
  induction d as [|[k0 v0] d IH]; simpl.
  - reflexivity.
  - destruct (String.eqb k k0) eqn:E; simpl.
    + apply String.eqb_eq in E; subst k0.
      destruct (String.eqb k' k); reflexivity.
    + rewrite IH. destruct (String.eqb k' k0) eqn:E0; [|reflexivity].
      apply String.eqb_eq in E0; subst k0.
      destruct (String.eqb k' k) eqn:E1; [|reflexivity].
      apply String.eqb_eq in E1; subst k'.
      rewrite String.eqb_refl in E; discriminate.
Qed.

Lemma dict_get_tags_dict (ts : list (string * string)) (k : string) :
  dict_get (Client.tags_dict ts) k =
  match find (fun kv => String.eqb k (fst kv)) ts with
  | Some kv => Some (VStr (snd kv))
  | None => None
  end.
Proof.
  unfold Client.tags_dict. induction ts as [|[k0 v0] ts IH]; simpl; [reflexivity|].
  destruct (String.eqb k k0); [reflexivity | exact IH].
Qed.

Lemma dict_get_tags_dict_none (ts : list (string * string)) (k : string) :
  ~ In k (map fst ts) -> dict_get (Client.tags_dict ts) k = None.
Proof.
  intros Hn. unfold Client.tags_dict. induction ts as [|[k0 v0] ts IH]; simpl; [reflexivity|].
  destruct (String.eqb k k0) eqn:E.
  - apply String.eqb_eq in E; subst. exfalso; apply Hn; simpl; auto.
  - apply IH. intro H; apply Hn; simpl; auto.
Qed.

(** [get_name] never changes the template: it either fails or returns it. *)
Lemma get_name_returns_template (m : string) (tags : option dict) (n : string) :
  get_name m tags = Ok n -> n = m.
Proof.
  unfold get_name, bind_result.
  destruct (get_name_loop _ _); intro H; inversion H; reflexivity.
Qed.

Lemma get_name_no_placeholder (m : string) (tags : option dict) :
  name_tags_of m = [] -> get_name m tags = Ok m.
Proof. intros H. unfold get_name. rewrite H. reflexivity. Qed.

(** A placeholder with no entry in the mapping makes the loop fail. *)
Lemma get_name_loop_missing (names : list string) (d : dict) (t : string) :
  In t names -> dict_get d t = None -> is_err (get_name_loop names (Some d)) = true.
Proof.
  induction names as [|n names IH]; simpl; [contradiction|].
  intros [<- | Hin] Hd.
  - rewrite Hd. reflexivity.
  - destruct (dict_get d n) as [[]|]; try reflexivity. apply IH; assumption.
Qed.

(** On a mapping of strings the only failure of the loop is a missing tag. *)
Lemma get_name_loop_err_kind (names : list string) (ts : list (string * string)) (e : PyExc) :
  get_name_loop names (Some (Client.tags_dict ts)) = Err e -> exists t, e = TagNotProvided t.
Proof.
  induction names as [|n names IH]; simpl; [discriminate|].
  rewrite dict_get_tags_dict.
  destruct (find _ ts) as [kv|].
  - exact IH.
  - intro H; inversion H; eauto.
Qed.

(** ** Claims *)

(** C1 (name resolution).  Claimed: [get_name] returns the template with
    every placeholder replaced by its tag value, e.g. ["cpu_(host)"] with
    [{"host": "a1"}] gives ["cpu_a1"].  The code discards the result of
    [str.replace]: on that input it returns ["cpu_(host)"], while the
    replacement the spec describes gives ["cpu_a1"]. *)
Theorem get_name_cpu_host_unresolved :
  get_name "cpu_(host)" (Some [("host", VStr "a1")]) = Ok "cpu_(host)"
  /\ spec_resolve (name_tags_of "cpu_(host)") [("host", VStr "a1")] "cpu_(host)" = "cpu_a1".
Proof. split; reflexivity. Qed.

(** C7 (aggregation catalog).  For every mode other than NONE the select
    expression is ["<fn>(f) AS <fn>_f"] and the result column ["<fn>_f"];
    for NONE both are the bare field name; so the alias of the expression is
    always the result column name. *)
Theorem aggregation_catalog_consistent (m : AggregationMode) (f : string) :
  match m with
  | AM_NONE => aggregate_field m f = f /\ get_result_field_name m f = f
  | _ =>
      aggregate_field m f = agg_get_str m ++ "(" ++ f ++ ") AS " ++ agg_get_str m ++ "_" ++ f
      /\ get_result_field_name m f = agg_get_str m ++ "_" ++ f
  end
  /\ aggregate_field m f =
     match m with
     | AM_NONE => get_result_field_name m f
     | _ => agg_get_str m ++ "(" ++ f ++ ") AS " ++ get_result_field_name m f
     end.
Proof. destruct m; split; try split; reflexivity. Qed.

(** C5 (point-query string).  For a measurement whose name [m] has no
    placeholder, tag filter [{"host": "a1"}], time range [(None, T)] and
    limit 5, [load_points] sends exactly
    [SELECT * FROM m WHERE "host"='a1' AND time <= '<T>' LIMIT 5;]. *)
Theorem load_points_query_exact (rfc3339_format : Z -> string) (m : string) (cd : list (string * ClassAttr)) (T : Z) :
  name_tags_of m = [] ->
  let q := "SELECT * FROM " ++ m ++ " WHERE " ++ dq ++ "host" ++ dq ++ "='a1' AND time <= '"
           ++ rfc3339_format T ++ "' LIMIT 5;" in
  Client.load_points rfc3339_format (mkMClass m cd) (Some [("host", "a1")])
    (Some (Client.TRPair None (Some T))) (Some 5) = (Ok q, [Client.RQuery q]).
Proof.
  intros Hm q. unfold Client.load_points, Client.load_points_query. simpl measurement_name.
  rewrite get_name_no_placeholder by exact Hm. simpl.
  unfold q. repeat rewrite str_app_assoc. reflexivity.
Qed.

(** ** Window alignment lemmas *)

Module WindowFacts.
Import Window.

Lemma length_snoc (pre : string) (u : ascii) :
  String.length (pre ++ String u "") = S (String.length pre).
Proof. induction pre as [|c pre IH]; simpl; [reflexivity | rewrite IH; reflexivity]. Qed.

Lemma get_snoc (pre : string) (u : ascii) :
  String.get (String.length pre) (pre ++ String u "") = Some u.
Proof. induction pre as [|c pre IH]; simpl; [reflexivity | exact IH]. Qed.

Lemma substring_snoc (pre : string) (u : ascii) :
  substring 0 (String.length pre) (pre ++ String u "") = pre.
Proof. induction pre as [|c pre IH]; simpl; [reflexivity | rewrite IH; reflexivity]. Qed.

Lemma list_ascii_snoc (pre : string) (u : ascii) :
  list_ascii_of_string (pre ++ String u "") = app (list_ascii_of_string pre) [u].
Proof. induction pre as [|c pre IH]; simpl; [reflexivity | rewrite IH; reflexivity]. Qed.

(** [get_value_and_unit] on a string of the form [pre ++ u]: [int(pre)],
    then [from_str(u)]. *)
Lemma get_value_and_unit_snoc (pre : string) (u : ascii) :
  get_value_and_unit (pre ++ String u "") =
  (value <- py_int pre ;; un <- from_str u ;; Ok (value, un)).
Proof.
  unfold get_value_and_unit. rewrite length_snoc. simpl Nat.sub.
  rewrite Nat.sub_0_r, get_snoc, substring_snoc. reflexivity.
Qed.

Lemma from_str_err (u : ascii) : is_err (from_str u) = negb (is_unit_char u).
Proof.
  unfold from_str, is_unit_char.
  destruct (Ascii.eqb u "m"%char), (Ascii.eqb u "d"%char), (Ascii.eqb u "h"%char),
    (Ascii.eqb u "s"%char); reflexivity.
Qed.

Lemma all_digits_app (l1 l2 : list ascii) :
  all_digits (app l1 l2) = all_digits l1 && all_digits l2.
Proof. induction l1 as [|c l1 IH]; simpl; [reflexivity | rewrite IH, andb_assoc; reflexivity]. Qed.

Lemma all_digits_rev (l : list ascii) : all_digits (rev l) = all_digits l.
Proof.
  induction l as [|c l IH]; simpl; [reflexivity|].
  rewrite all_digits_app, IH. simpl. rewrite andb_true_r, andb_comm. reflexivity.
Qed.

Lemma digit_not_space (c : ascii) : is_digit c = true -> is_py_space c = false.
Proof.
  unfold is_digit, is_py_space. intro H. apply andb_true_iff in H as [H1 H2].
  apply Nat.leb_le in H1. apply Nat.leb_le in H2.
  rewrite (proj2 (Nat.leb_gt (nat_of_ascii c) 13)) by lia.
  rewrite (proj2 (Nat.eqb_neq (nat_of_ascii c) 32)) by lia.
  rewrite (proj2 (Nat.eqb_neq (nat_of_ascii c) 133)) by lia.
  rewrite (proj2 (Nat.eqb_neq (nat_of_ascii c) 160)) by lia.
  rewrite andb_false_r. reflexivity.
Qed.

Lemma count_digits_all (l : list ascii) : all_digits l = true -> count_digits l = length l.
Proof.
  unfold count_digits. induction l as [|c l IH]; simpl; [reflexivity|].
  intro H. apply andb_true_iff in H as [Hc Hl]. rewrite Hc. simpl. f_equal. apply IH, Hl.
Qed.

Lemma length_list_ascii (s : string) : length (list_ascii_of_string s) = String.length s.
Proof. induction s as [|c s IH]; simpl; [reflexivity|]. f_equal; exact IH. Qed.

Lemma lstrip_digits (l : list ascii) : all_digits l = true -> lstrip l = l.
Proof.
  destruct l as [|c l]; simpl; [reflexivity|].
  intro H. apply andb_true_iff in H as [H _]. rewrite digit_not_space by exact H. reflexivity.
Qed.

Lemma strip_digits (l : list ascii) : all_digits l = true -> strip l = l.
Proof.
  intro H. unfold strip. rewrite (lstrip_digits l H).
  rewrite lstrip_digits by (rewrite all_digits_rev; exact H).
  apply rev_involutive.
Qed.

Lemma digits_from_all (l : list ascii) (acc : Z) :
  all_digits l = true -> digits_from l acc false = Some (dec_value_acc l acc).
Proof.
  revert acc. induction l as [|c l IH]; intros acc H; simpl; [reflexivity|].
  simpl in H. apply andb_true_iff in H as [Hc Hl]. rewrite Hc. apply IH, Hl.
Qed.

Lemma digit_val_nonneg (c : ascii) : is_digit c = true -> 0 <= digit_val c.
Proof.
  unfold is_digit, digit_val. intro H. apply andb_true_iff in H as [H _].
  apply Nat.leb_le in H. lia.
Qed.

Lemma digit_val_pos (c : ascii) :
  is_digit c = true -> Ascii.eqb c "0"%char = false -> 0 < digit_val c.
Proof.
  unfold is_digit, digit_val. intros H H0. apply andb_true_iff in H as [H _].
  apply Nat.leb_le in H.
  destruct (Nat.eq_dec (nat_of_ascii c) 48) as [E|E]; [|lia].
  exfalso. assert (c = "0"%char) as ->.
  { rewrite <- (ascii_nat_embedding c), E. reflexivity. }
  discriminate.
Qed.

Lemma dec_value_ge (l : list ascii) (acc : Z) :
  all_digits l = true -> 0 <= acc -> acc <= dec_value_acc l acc.
Proof.
  revert acc. induction l as [|c l IH]; intros acc H Ha; simpl; [lia|].
  simpl in H. apply andb_true_iff in H as [Hc Hl].
  pose proof (digit_val_nonneg c Hc).
  specialize (IH (acc * 10 + digit_val c) Hl ltac:(lia)). lia.
Qed.

(** A grammar-conforming prefix is read by [int()] as its decimal value,
    which is positive, unless it has more than 4300 digits. *)
Lemma py_int_grammar (pre : string) (u : ascii) :
  grammar_ok (pre ++ String u "") = true ->
  is_unit_char u = true /\
  py_int pre = (if Nat.ltb max_str_digits (String.length pre) then Err ValueError
                else Ok (dec_value_acc (list_ascii_of_string pre) 0)) /\
  0 < dec_value_acc (list_ascii_of_string pre) 0.
Proof.
  unfold grammar_ok. rewrite list_ascii_snoc, rev_app_distr. simpl.
  rewrite rev_involutive. rewrite <- length_list_ascii.
  destruct (list_ascii_of_string pre) as [|c r] eqn:Hl; [discriminate|].
  intro H. apply andb_true_iff in H as [H Hu]. apply andb_true_iff in H as [H0 Hd].
  apply negb_true_iff in H0.
  split; [exact Hu|].
  assert (Hc : is_digit c = true) by (simpl in Hd; apply andb_true_iff in Hd; apply Hd).
  assert (Hr : all_digits r = true) by (simpl in Hd; apply andb_true_iff in Hd; apply Hd).
  unfold py_int. rewrite Hl, strip_digits by exact Hd.
  assert (Hp : Ascii.eqb c "+"%char = false).
  { destruct (Ascii.eqb c "+"%char) eqn:E; [|reflexivity].
    apply Ascii.eqb_eq in E; subst c. discriminate. }
  assert (Hm : Ascii.eqb c "-"%char = false).
  { destruct (Ascii.eqb c "-"%char) eqn:E; [|reflexivity].
    apply Ascii.eqb_eq in E; subst c. discriminate. }
  rewrite Hp, Hm. rewrite (count_digits_all _ Hd).
  unfold parse_digits. rewrite Hc, digits_from_all by exact Hr.
  simpl. split; [reflexivity|].
  pose proof (digit_val_pos c Hc H0).
  pose proof (dec_value_ge r (digit_val c) Hr ltac:(lia)). lia.
Qed.

Lemma forallb_rev_ascii (f : ascii -> bool) (l : list ascii) :
  forallb f (rev l) = forallb f l.
Proof.
  induction l as [|c l IH]; simpl; [reflexivity|].
  rewrite forallb_app, IH. simpl. rewrite andb_true_r, andb_comm. reflexivity.
Qed.

Lemma lstrip_app_spaces (ws l : list ascii) :
  forallb is_py_space ws = true -> lstrip (app ws l) = lstrip l.
Proof.
  induction ws as [|c ws IH]; simpl; [reflexivity|].
  intro H. apply andb_true_iff in H as [Hc Hw]. rewrite Hc. apply IH, Hw.
Qed.

(** [int()] on digits padded with whitespace: the digits' decimal value,
    or [ValueError] past 4300 digits. *)
Lemma py_int_padded (ws1 d ws2 : list ascii) :
  forallb is_py_space ws1 = true -> forallb is_py_space ws2 = true ->
  all_digits d = true -> d <> [] ->
  py_int (string_of_list_ascii (app ws1 (app d ws2))) =
  (if Nat.ltb max_str_digits (length d) then Err ValueError else Ok (dec_value_acc d 0)).
Proof.
  intros H1 H2 Hd Hne. unfold py_int, strip.
  rewrite list_ascii_of_string_of_list_ascii, lstrip_app_spaces by exact H1.
  destruct d as [|c r]; [congruence|].
  assert (Hc : is_digit c = true) by (simpl in Hd; apply andb_true_iff in Hd; apply Hd).
  assert (Hr : all_digits r = true) by (simpl in Hd; apply andb_true_iff in Hd; apply Hd).
  replace (lstrip (app (c :: r) ws2)) with (app (c :: r) ws2)
    by (simpl; rewrite (digit_not_space c Hc); reflexivity).
  rewrite rev_app_distr, lstrip_app_spaces by (rewrite forallb_rev_ascii; exact H2).
  rewrite (lstrip_digits (rev (c :: r))) by (rewrite all_digits_rev; exact Hd).
  rewrite rev_involutive.
  assert (Hp : Ascii.eqb c "+"%char = false).
  { destruct (Ascii.eqb c "+"%char) eqn:E; [|reflexivity].
    apply Ascii.eqb_eq in E; subst c. discriminate. }
  assert (Hm : Ascii.eqb c "-"%char = false).
  { destruct (Ascii.eqb c "-"%char) eqn:E; [|reflexivity].
    apply Ascii.eqb_eq in E; subst c. discriminate. }
  rewrite Hp, Hm, (count_digits_all _ Hd).
  unfold parse_digits. rewrite Hc, digits_from_all by exact Hr. reflexivity.
Qed.

Lemma unit_us_even (un : AggregationTimeUnit) : Z.even (unit_us un) = true.
Proof. destruct un; reflexivity. Qed.

End WindowFacts.

(** C2 (malformed interval).  Claimed: [get_time_point_of_window] fails
    for every alignment on an interval string outside the grammar.  With
    START the string is not looked at: ["10x"] gives back the bucket start;
    with END, ["0s"] (outside the grammar) is accepted. *)
Lemma window_start_accepts_malformed :
  Window.grammar_ok "10x" = false
  /\ Window.get_time_point_of_window Window.START 0 "10x" = Ok 0
  /\ Window.grammar_ok "0s" = false
  /\ Window.get_time_point_of_window Window.END 0 "0s" = Ok 0
  /\ Window.grammar_ok "-2h" = false
  /\ Window.get_time_point_of_window Window.END (3 * Window.us_per_hour) "-2h"
     = Ok Window.us_per_hour.
Proof. vm_compute. repeat split. Qed.

(** C2, as the code does it.  START returns the bucket start for every
    string.  CENTER and END read the string as [int(prefix)] followed by a
    unit character: they fail on the empty string, on a last character
    outside [s m h d], and on a prefix [int()] refuses.  Any other string,
    in the grammar or not, is accepted and its value used: [int()] takes
    digits padded with whitespace, a sign and single underscores, as in
    [" 3d"], ["1_0m"], ["-2h"] and ["0s"]; it refuses U+001C ([int('\x1c3')]
    raises), and more than 4300 digits. *)
Theorem window_interval_failures (t : Z) :
  (forall s, Window.get_time_point_of_window Window.START t s = Ok t)
  /\ Window.get_value_and_unit "" = Err IndexError
  /\ (forall w s, w <> Window.START ->
        is_err (Window.get_value_and_unit s) = true ->
        is_err (Window.get_time_point_of_window w t s) = true)
  /\ (forall pre u, Window.is_unit_char u = false ->
        is_err (Window.get_value_and_unit (pre ++ String u "")) = true)
  /\ (forall pre u e, Window.py_int pre = Err e ->
        Window.get_value_and_unit (pre ++ String u "") = Err e)
  /\ (forall pre u v un, Window.py_int pre = Ok v -> Window.from_str u = Ok un ->
        Window.get_time_point_of_window Window.END t (pre ++ String u "") =
          (delta <- Window.mk_timedelta (v * Window.unit_us un) ;; Window.dt_add t delta)
        /\ Window.get_time_point_of_window Window.CENTER t (pre ++ String u "") =
          (delta <- Window.mk_timedelta (v * Window.unit_us un / 2) ;; Window.dt_add t delta))
  /\ (forall ws1 d ws2, forallb Window.is_py_space ws1 = true ->
        forallb Window.is_py_space ws2 = true ->
        Window.all_digits d = true -> d <> [] -> (length d <= Window.max_str_digits)%nat ->
        Window.py_int (string_of_list_ascii (app ws1 (app d ws2))) =
        Ok (Window.dec_value_acc d 0))
  /\ Window.py_int " 3" = Ok 3
  /\ Window.py_int "1_0" = Ok 10
  /\ Window.py_int "-2" = Ok (-2)
  /\ Window.py_int (String (ascii_of_nat 160) "3") = Ok 3
  /\ Window.py_int (String (ascii_of_nat 28) "3") = Err ValueError
  /\ Window.py_int "1__0" = Err ValueError
  /\ Window.get_time_point_of_window Window.END 0 " 3d" = Ok (3 * Window.us_per_day)
  /\ Window.get_time_point_of_window Window.END 0 "1_0m" = Ok (10 * Window.us_per_minute)
  /\ Window.get_time_point_of_window Window.END 0 (String (ascii_of_nat 28) "3d")
     = Err ValueError.
Proof.
  split; [reflexivity|]. split; [reflexivity|].
  split.
  { intros w s Hw. destruct w; [congruence| |];
      unfold Window.get_time_point_of_window;
      destruct (Window.get_value_and_unit s) as [[v un]|e]; simpl; congruence. }
  split.
  { intros pre u Hu. rewrite WindowFacts.get_value_and_unit_snoc.
    pose proof (WindowFacts.from_str_err u) as E. rewrite Hu in E.
    destruct (Window.py_int pre); [|reflexivity]. simpl.
    destruct (Window.from_str u); [discriminate | reflexivity]. }
  split.
  { intros pre u e He. rewrite WindowFacts.get_value_and_unit_snoc, He. reflexivity. }
  split.
  { intros pre u v un Hv Hu. unfold Window.get_time_point_of_window.
    rewrite WindowFacts.get_value_and_unit_snoc, Hv, Hu. split; reflexivity. }
  split.
  { intros ws1 d ws2 H1 H2 Hd Hne Hl.
    rewrite WindowFacts.py_int_padded by assumption.
    apply Nat.ltb_ge in Hl. rewrite Hl. reflexivity. }
  vm_compute. repeat split.
Qed.

(** C6 (window arithmetic).  Claimed for every bucket start [t] and every
    grammar interval.  At the last representable datetime, END with ["1s"]
    raises [OverflowError] instead of returning [t + 1s]. *)
Lemma window_end_overflow :
  Window.grammar_ok "1s" = true
  /\ Window.valid_datetime Window.datetime_max = true
  /\ Window.get_time_point_of_window Window.END Window.datetime_max "1s" = Err OverflowError.
Proof. vm_compute. repeat split. Qed.

(** C6, as the code does it.  For an interval [pre ++ u] in the grammar,
    of value [v] and unit [un]: START gives [t].  When [pre] has at most
    4300 digits, END gives [t + v*unit] and CENTER gives [t + v*unit/2]
    (exact: [v*unit] is an even number of microseconds), each when the
    offset fits a [timedelta] and the result is a representable datetime,
    and [OverflowError] otherwise.  With more than 4300 digits [int()]
    raises [ValueError] first. *)
Theorem window_time_point_arith (t : Z) (pre : string) (u : ascii)
    (un : Window.AggregationTimeUnit) :
  Window.grammar_ok (pre ++ String u "") = true ->
  Window.from_str u = Ok un ->
  let s := pre ++ String u "" in
  let v := Window.dec_value_acc (list_ascii_of_string pre) 0 in
  let span := v * Window.unit_us un in
  0 < v
  /\ Z.even span = true
  /\ Window.get_time_point_of_window Window.START t s = Ok t
  /\ ((String.length pre <= Window.max_str_digits)%nat ->
      Window.get_time_point_of_window Window.END t s =
      (if (span <? (Window.max_days + 1) * Window.us_per_day)
          && Window.valid_datetime (t + span)
       then Ok (t + span) else Err OverflowError)
      /\ Window.get_time_point_of_window Window.CENTER t s =
      (if (span / 2 <? (Window.max_days + 1) * Window.us_per_day)
          && Window.valid_datetime (t + span / 2)
       then Ok (t + span / 2) else Err OverflowError))
  /\ ((Window.max_str_digits < String.length pre)%nat ->
      Window.get_time_point_of_window Window.END t s = Err ValueError
      /\ Window.get_time_point_of_window Window.CENTER t s = Err ValueError).
Proof.
  intros Hg Hu s v span.
  destruct (WindowFacts.py_int_grammar pre u Hg) as [_ [Hv Hpos]].
  fold v in Hv, Hpos.
  assert (Hun : 0 < Window.unit_us un) by (destruct un; reflexivity).
  assert (Hsp : 0 < span) by (unfold span; apply Z.mul_pos_pos; assumption).
  split; [exact Hpos|]. split.
  { unfold span. rewrite Z.even_mul, WindowFacts.unit_us_even, orb_true_r. reflexivity. }
  split; [reflexivity|].
  split; intro Hlen.
  2:{ apply Nat.ltb_lt in Hlen. rewrite Hlen in Hv.
      unfold s, Window.get_time_point_of_window.
      rewrite WindowFacts.get_value_and_unit_snoc, Hv. split; reflexivity. }
  apply Nat.ltb_ge in Hlen. rewrite Hlen in Hv.
  unfold s, Window.get_time_point_of_window.
  rewrite WindowFacts.get_value_and_unit_snoc, Hv, Hu. simpl bind_result.
  fold span.
  unfold Window.mk_timedelta, Window.dt_add.
  assert (Hlo1 : (- Window.max_days * Window.us_per_day <=? span) = true) by (apply Z.leb_le; unfold Window.max_days, Window.us_per_day, Window.us_per_hour, Window.us_per_minute, Window.us_per_second in *; lia).
  assert (Hlo2 : (- Window.max_days * Window.us_per_day <=? span / 2) = true).
  { apply Z.leb_le. assert (0 <= span / 2) by (apply Z.div_pos; lia).
    unfold Window.max_days, Window.us_per_day, Window.us_per_hour, Window.us_per_minute, Window.us_per_second in *; lia. }
  rewrite Hlo1, Hlo2. simpl.
  split.
  - destruct (span <? _); simpl; [|reflexivity].
    destruct (Window.valid_datetime (t + span)); reflexivity.
  - destruct (span / 2 <? _); simpl; [|reflexivity].
    destruct (Window.valid_datetime (t + span / 2)); reflexivity.
Qed.

(** The interval ["2h"] at bucket start 0: END is two hours later, CENTER
    one hour. *)
Lemma window_time_point_arith_witness :
  Window.grammar_ok ("2" ++ String "h" "") = true
  /\ Window.from_str "h"%char = Ok Window.HOUR
  /\ Window.get_time_point_of_window Window.END 0 "2h" = Ok (2 * Window.us_per_hour)
  /\ Window.get_time_point_of_window Window.CENTER 0 "2h" = Ok Window.us_per_hour.
Proof.
  split; [reflexivity|]. split; [reflexivity|].
  destruct (window_time_point_arith 0 "2" "h" Window.HOUR eq_refl eq_refl)
    as [_ [_ [_ [Hsmall _]]]].
  destruct (Hsmall ltac:(apply Nat.leb_le; reflexivity)) as [HE HC].
  change ("2" ++ String "h" "") with "2h" in HE, HC.
  split; [rewrite HE | rewrite HC]; vm_compute; reflexivity.
Defined.

Lemma load_points_query_exact_witness :
  name_tags_of "m" = []
  /\ Client.load_points (fun _ => "2020-01-01T00:00:00+00:00") (mkMClass "m" [])
       (Some [("host", "a1")]) (Some (Client.TRPair None (Some 0))) (Some 5)
     = (Ok ("SELECT * FROM m WHERE " ++ dq ++ "host" ++ dq
            ++ "='a1' AND time <= '2020-01-01T00:00:00+00:00' LIMIT 5;"),
        [Client.RQuery ("SELECT * FROM m WHERE " ++ dq ++ "host" ++ dq
            ++ "='a1' AND time <= '2020-01-01T00:00:00+00:00' LIMIT 5;")]).
Proof.
  split; [reflexivity|].
  exact (load_points_query_exact (fun _ => "2020-01-01T00:00:00+00:00") "m" [] 0 eq_refl).
Defined.

(** C3 (type checking on assignment).  Claimed: every descriptor rejects
    a non-null value of the wrong runtime type.  [Tag.__set__] has no type
    check: a non-nullable tag stores the int [5]; an [IntegerField] stores
    [True] ([bool] is a subclass of [int]). *)
Lemma tag_set_accepts_non_string :
  type_disagrees (DTag (mkTag "host" false)) (VInt 5) = true
  /\ desc_set (DTag (mkTag "host" false)) [] (VInt 5) = Ok [("host", VInt 5)]
  /\ type_disagrees (DField (mkField IntegerField "n" false)) (VBool true) = true
  /\ desc_set (DField (mkField IntegerField "n" false)) [] (VBool true)
     = Ok [("n", VBool true)].
Proof. repeat split. Qed.

(** C3, as the code does it.  The typed field classes reject a non-null
    value that is not an instance of their Python type ([int] for the
    integer ones, which admits [bool]; [float]; [bool]; [str] for the
    string ones) with [TypeError]; a plain [Field] and a [Tag] store any
    non-null value. *)
Theorem descriptor_type_checks :
  (forall f data v, is_none v = false ->
     match f_class f with
     | PlainField _ => field_set f data v = Ok (dict_set data (f_name f) v)
     | IntegerField | MultipleChoiceIntegerField _ | EnumIntegerField _ =>
         isinstance_int v = false -> field_set f data v = Err TypeError
     | FloatField => isinstance_float v = false -> field_set f data v = Err TypeError
     | BooleanField => isinstance_bool v = false -> field_set f data v = Err TypeError
     | StringField | MultipleChoiceStringField _ | EnumStringField _ =>
         isinstance_str v = false -> field_set f data v = Err TypeError
     end)
  /\ (forall t data v, is_none v = false -> tag_set t data v = Ok (dict_set data (t_name t) v)).
Proof.
  split.
  - intros [c n nl] data v Hn.
    destruct c; simpl; unfold field_set, base_field_set; simpl; rewrite Hn;
      try (rewrite andb_false_r; reflexivity);
      intro Hi; rewrite Hi; reflexivity.
  - intros [n nl] data v Hn. unfold tag_set. simpl. rewrite Hn, andb_false_r. reflexivity.
Qed.

(** [descriptor_type_checks] at a non-nullable [IntegerField] given a
    string and at a [Tag] given an int. *)
Lemma descriptor_type_checks_witness :
  field_set (mkField IntegerField "n" false) [] (VStr "x") = Err TypeError
  /\ tag_set (mkTag "host" false) [] (VInt 5) = Ok [("host", VInt 5)].
Proof.
  destruct descriptor_type_checks as [Hf Ht]. split.
  - exact (Hf (mkField IntegerField "n" false) [] (VStr "x") eq_refl eq_refl).
  - exact (Ht (mkTag "host" false) [] (VInt 5) eq_refl).
Defined.

(** The measurement of the write-path example: template ["cpu_(host)"], a
    non-nullable tag [host] and a non-nullable integer field [value]. *)
Definition cpu_class : MClass :=
  meta_new "cpu" (Some "cpu_(host)")
    [("host", BTag None false); ("value", BField IntegerField None false)].

Definition cpu_point : result Instance :=
  my_custom_init cpu_class (VDatetime 0) [("host", VStr "a1"); ("value", VInt 1)].

(** C4 (write wire record).  Claimed: ["measurement"] is the name resolved
    from the record's tags.  For [cpu(host="a1", value=1)] the record
    carries the unresolved template ["cpu_(host)"], not ["cpu_a1"]. *)
Theorem cli_format_cpu_unresolved (py_str : PyVal -> string) :
  bind_result cpu_point (get_cli_format py_str) =
  Ok (mkWire "cpu_(host)" [("host", VStr "a1")] (py_str (VDatetime 0)) [("value", VInt 1)])
  /\ spec_resolve (name_tags_of "cpu_(host)") [("host", VStr "a1")] "cpu_(host)" = "cpu_a1".
Proof. split; reflexivity. Qed.

(** ** Name-resolution failures stop every client call before it sends *)

Module Issue.
Import Client.

Lemma load_points_name_err (rfc : Z -> string) (cls : MClass) tags tr lim (e : PyExc) :
  get_name (measurement_name cls) (option_map tags_dict tags) = Err e ->
  load_points rfc cls tags tr lim = (Err e, []).
Proof.
  intro H. unfold load_points, load_points_query. rewrite H. reflexivity.
Qed.

Lemma get_fields_as_series_name_err (rfc : Z -> string) (cls : MClass) fas tags g fm fn tr lim
    (e : PyExc) :
  get_name (measurement_name cls) (option_map tags_dict tags) = Err e ->
  is_err (fst (get_fields_as_series rfc cls fas tags g fm fn tr lim)) = true
  /\ snd (get_fields_as_series rfc cls fas tags g fm fn tr lim) = [].
Proof.
  intro H. unfold get_fields_as_series, get_fields_as_series_query.
  destruct fas as [[|fa fas]|]; simpl bind_result; try (split; reflexivity).
  destruct (fill_check fm fn); simpl bind_result; try (split; reflexivity).
  destruct g as [g|]; simpl bind_result.
  - destruct (group_by_regex_match g); simpl bind_result; [|split; reflexivity].
    rewrite H. split; reflexivity.
  - rewrite H. split; reflexivity.
Qed.

Lemma distinct_name_err (tag : string) (cls : MClass) tags (e : PyExc) :
  get_name (measurement_name cls) (option_map tags_dict tags) = Err e ->
  get_distinct_existing_tag_values tag (Some cls) tags = (Err e, []).
Proof.
  intro H. unfold get_distinct_existing_tag_values. rewrite H. reflexivity.
Qed.

Lemma cli_formats_err (py_str : PyVal -> string) (items : list Instance) (i : Instance) :
  In i items -> is_err (get_cli_format py_str i) = true ->
  is_err (cli_formats py_str items) = true.
Proof.
  induction items as [|j items IH]; simpl; [contradiction|].
  intros [-> | Hin] He.
  - destruct (get_cli_format py_str i); [discriminate | reflexivity].
  - destruct (get_cli_format py_str j); simpl; [|reflexivity].
    specialize (IH Hin He). destruct (cli_formats py_str items); [discriminate | reflexivity].
Qed.

Lemma save_points_err (py_str : PyVal -> string) (items : list Instance) (i : Instance) :
  In i items -> is_err (get_cli_format py_str i) = true ->
  is_err (fst (save_points py_str items)) = true /\ snd (save_points py_str items) = [].
Proof.
  intros Hin He. pose proof (cli_formats_err py_str items i Hin He) as H.
  unfold save_points. destruct (cli_formats py_str items); [discriminate|].
  split; reflexivity.
Qed.

(** The tag dict of an instance has only its declared tags as keys. *)
Lemma tag_values_dict_keys (i : Instance) (cd : list (string * ClassAttr)) (acc td : dict)
    (t : string) :
  tag_values_dict i cd acc = Ok td ->
  dict_get acc t = None ->
  (forall k tg, In (k, CTag tg) cd -> t_name tg <> t) ->
  dict_get td t = None.
Proof.
  revert acc. induction cd as [|[k a] cd IH]; intros acc Htv Hacc Hnt; simpl in Htv.
  - inversion Htv; subst. exact Hacc.
  - destruct a as [f|tg|].
    + apply (IH acc Htv Hacc). intros k' tg' Hin. apply (Hnt k'). simpl; auto.
    + destruct (data_get i (t_name tg)) as [v|e]; simpl in Htv; [|discriminate].
      apply (IH _ Htv).
      * rewrite dict_get_set.
        destruct (String.eqb t (t_name tg)) eqn:E; [|exact Hacc].
        apply String.eqb_eq in E. exfalso. apply (Hnt k tg); [simpl; auto | auto].
      * intros k' tg' Hin. apply (Hnt k'). simpl; auto.
    + apply (IH acc Htv Hacc). intros k' tg' Hin. apply (Hnt k'). simpl; auto.
Qed.

Lemma cli_format_name_err (py_str : PyVal -> string) (i : Instance) (t : string) :
  In t (name_tags_of (measurement_name (i_cls i))) ->
  (forall k tg, In (k, CTag tg) (class_dict (i_cls i)) -> t_name tg <> t) ->
  is_err (get_cli_format py_str i) = true.
Proof.
  intros Ht Hnt. unfold get_cli_format.
  destruct (fields_and_values i _ []); simpl; [|reflexivity].
  destruct (check_fields_nonnull _); simpl; [|reflexivity].
  destruct (tags_and_values i _ []); simpl; [|reflexivity].
  destruct (check_tags_nonnull _); simpl; [|reflexivity].
  destruct (tag_values_dict i _ []) as [td|] eqn:Etd; simpl; [|reflexivity].
  pose proof (tag_values_dict_keys i _ [] td t Etd eq_refl Hnt) as Hnone.
  pose proof (get_name_loop_missing _ td t Ht Hnone) as Hl.
  unfold get_name. destruct (get_name_loop _ _); [discriminate | reflexivity].
Qed.

End Issue.

(** C8 (missing tag).  A template with a placeholder [(t)] and a tag
    mapping ([Dict[str, str]]) that is [None] or has no key [t]:
    [get_name] fails with a missing-tag error ([NullResolutionTags] or
    [TagNotProvided]), and [load_points], [get_fields_as_series] and
    [get_distinct_existing_tag_values] on such a measurement fail without
    sending anything; [save_points] of an instance whose class declares no
    tag [t] fails without writing. *)
Theorem name_resolution_missing_tag (tmpl t : string) (tags : option (list (string * string))) :
  In t (name_tags_of tmpl) ->
  match tags with None => True | Some ts => ~ In t (map fst ts) end ->
  (exists t', get_name tmpl (option_map Client.tags_dict tags) = Err (NullResolutionTags t')
              \/ get_name tmpl (option_map Client.tags_dict tags) = Err (TagNotProvided t'))
  /\ (forall rfc cd tr lim,
        is_err (fst (Client.load_points rfc (mkMClass tmpl cd) tags tr lim)) = true
        /\ snd (Client.load_points rfc (mkMClass tmpl cd) tags tr lim) = [])
  /\ (forall rfc cd fas g fm fn tr lim,
        is_err (fst (Client.get_fields_as_series rfc (mkMClass tmpl cd) fas tags g fm fn tr lim)) = true
        /\ snd (Client.get_fields_as_series rfc (mkMClass tmpl cd) fas tags g fm fn tr lim) = [])
  /\ (forall tag cd,
        is_err (fst (Client.get_distinct_existing_tag_values tag (Some (mkMClass tmpl cd)) tags)) = true
        /\ snd (Client.get_distinct_existing_tag_values tag (Some (mkMClass tmpl cd)) tags) = [])
  /\ (forall py_str items i,
        In i items -> measurement_name (i_cls i) = tmpl ->
        (forall k tg, In (k, CTag tg) (class_dict (i_cls i)) -> t_name tg <> t) ->
        is_err (fst (Client.save_points py_str items)) = true
        /\ snd (Client.save_points py_str items) = []).
Proof.
  intros Ht Htags.
  assert (Hname : exists t', get_name tmpl (option_map Client.tags_dict tags) = Err (NullResolutionTags t')
              \/ get_name tmpl (option_map Client.tags_dict tags) = Err (TagNotProvided t')).
  { unfold get_name. destruct tags as [ts|]; simpl.
    - pose proof (get_name_loop_missing (name_tags_of tmpl) (Client.tags_dict ts) t Ht
                    (dict_get_tags_dict_none ts t Htags)) as Hl.
      destruct (get_name_loop _ _) as [u|e] eqn:E; [discriminate|].
      destruct (get_name_loop_err_kind _ _ _ E) as [t' ->]. exists t'. right. reflexivity.
    - destruct (name_tags_of tmpl) as [|n ns]; [contradiction|].
      exists n. left. reflexivity. }
  destruct Hname as [t' Hn].
  assert (He : exists e, get_name tmpl (option_map Client.tags_dict tags) = Err e)
    by (destruct Hn as [H|H]; eauto).
  destruct He as [e He].
  split; [exists t'; exact Hn|].
  split; [intros; rewrite (Issue.load_points_name_err rfc (mkMClass tmpl cd) tags tr lim e He); split; reflexivity|].
  split; [intros; exact (Issue.get_fields_as_series_name_err rfc (mkMClass tmpl cd) fas tags g fm fn tr lim e He)|].
  split; [intros; rewrite (Issue.distinct_name_err tag (mkMClass tmpl cd) tags e He); split; reflexivity|].
  intros py_str items i Hin Hm Hnt.
  apply (Issue.save_points_err py_str items i Hin).
  apply (Issue.cli_format_name_err py_str i t); [rewrite Hm; exact Ht | exact Hnt].
Qed.

Lemma name_resolution_missing_tag_witness :
  In "host" (name_tags_of "cpu_(host)") /\ ~ In "host" (map fst [("dc", "eu")])
  /\ is_err (fst (Client.load_points (fun _ => "") (mkMClass "cpu_(host)" [])
                    (Some [("dc", "eu")]) None None)) = true
  /\ snd (Client.load_points (fun _ => "") (mkMClass "cpu_(host)" [])
          (Some [("dc", "eu")]) None None) = [].
Proof.
  assert (H1 : In "host" (name_tags_of "cpu_(host)")) by (simpl; auto).
  assert (H2 : ~ In "host" (map fst [("dc", "eu")])) by (simpl; intuition discriminate).
  split; [exact H1|]. split; [exact H2|].
  destruct (name_resolution_missing_tag "cpu_(host)" "host" (Some [("dc", "eu")]) H1 H2)
    as [_ [Hl _]].
  exact (Hl (fun _ => "") [] None None).
Defined.

(** C9 (fill mode / fill number).  The fill check passes exactly when a
    fill number is given if and only if the mode is NUMBER; when it fails
    (NUMBER without a number, or a number with another or no mode),
    [get_fields_as_series] fails without sending a query. *)
Theorem fill_number_coupling :
  (forall fm fn,
     is_err (Client.fill_check fm fn) = false
     <-> (fm = Some Client.FM_NUMBER <-> fn <> None))
  /\ (forall rfc cls fas tags g fm fn tr lim,
        (fm = Some Client.FM_NUMBER /\ fn = None)
        \/ (fn <> None /\ fm <> Some Client.FM_NUMBER) ->
        is_err (fst (Client.get_fields_as_series rfc cls fas tags g fm fn tr lim)) = true
        /\ snd (Client.get_fields_as_series rfc cls fas tags g fm fn tr lim) = []).
Proof.
  split.
  - intros fm fn. unfold Client.fill_check.
    destruct fm as [[]|], fn as [n|]; simpl; split; intro H;
      try reflexivity; try discriminate; try (split; intro; congruence);
      try (destruct H as [H1 H2]; exfalso;
           first [apply H2; congruence | specialize (H1 eq_refl); congruence
                 | discriminate (H2 (fun E => match E with eq_refl => I end))]).
  - intros rfc cls fas tags g fm fn tr lim Hc.
    assert (Hf : Client.fill_check fm fn = Err AssertionError).
    { unfold Client.fill_check.
      destruct Hc as [[-> ->] | [Hn Hm]]; [reflexivity|].
      destruct fn as [n|]; [|congruence].
      destruct fm as [[]|]; congruence. }
    unfold Client.get_fields_as_series, Client.get_fields_as_series_query.
    destruct fas as [[|fa fas]|]; simpl bind_result; try (split; reflexivity).
    rewrite Hf. split; reflexivity.
Qed.

(** ** Instance construction *)

Module Init.

Lemma desc_set_data (d : Descriptor) (data : dict) (v : PyVal) :
  desc_set d data v =
  match desc_set d [] v with
  | Ok _ => Ok (dict_set data (desc_name d) v)
  | Err e => Err e
  end.
Proof.
  destruct d as [[c n nl]|[n nl]]; [destruct c|]; simpl;
    unfold field_set, base_field_set, tag_set; simpl;
    destruct v; destruct nl; simpl; try reflexivity;
    repeat match goal with |- context [if ?b then _ else _] => destruct b end;
    reflexivity.
Qed.

Lemma cdict_get_wf (cd : list (string * ClassAttr)) (k : string) (a : ClassAttr) :
  forallb entry_wf cd = true -> cdict_get cd k = Some a -> entry_wf (k, a) = true.
Proof.
  induction cd as [|[k' a'] cd IH]; simpl; [discriminate|].
  intro H. apply andb_true_iff in H as [H1 H2].
  destruct (String.eqb k k') eqn:E.
  - apply String.eqb_eq in E; subst. intro Ha; inversion Ha; subst. exact H1.
  - apply IH, H2.
Qed.

Lemma class_desc_name (cls : MClass) (k : string) (d : Descriptor) :
  class_wf cls = true -> class_desc cls k = Some d -> desc_name d = k.
Proof.
  unfold class_desc, class_wf. intro Hw.
  destruct (cdict_get (class_dict cls) k) as [a|] eqn:E; [|discriminate].
  pose proof (cdict_get_wf _ k a Hw E) as Ha. unfold entry_wf in Ha; simpl in Ha.
  destruct a as [f|t|]; intro Hd; inversion Hd; subst; simpl;
    apply String.eqb_eq; assumption.
Qed.

(** One step of the loop on a declared key. *)
Lemma loop_step (cls : MClass) (tp : PyVal) (data : dict) (k : string) (v : PyVal)
    (rest : list (string * PyVal)) (d : Descriptor) :
  class_desc cls k = Some d ->
  init_kwargs_loop cls tp data ((k, v) :: rest) =
  (data' <- desc_set d data v ;; init_kwargs_loop cls tp data' rest).
Proof.
  unfold class_desc. simpl.
  destruct (cdict_get (class_dict cls) k) as [[f|t|]|]; intro H; inversion H; reflexivity.
Qed.

Lemma loop_preserves (cls : MClass) (kw : list (string * PyVal)) :
  class_wf cls = true ->
  forall tp data inst k, init_kwargs_loop cls tp data kw = Ok inst ->
  ~ In k (map fst kw) -> dict_get (i_data inst) k = dict_get data k.
Proof.
  intro Hw. induction kw as [|[key value] kw IH]; intros tp data inst k Hl Hk.
  - simpl in Hl. inversion Hl; reflexivity.
  - assert (Hne : key <> k) by (intro; subst; apply Hk; simpl; auto).
    assert (Hk' : ~ In k (map fst kw)) by (intro; apply Hk; simpl; auto).
    destruct (class_desc cls key) as [d|] eqn:Ed.
    + rewrite (loop_step cls tp data key value kw d Ed), desc_set_data in Hl.
      destruct (desc_set d [] value); simpl in Hl; [|discriminate].
      rewrite (IH _ _ _ k Hl Hk'), dict_get_set, (class_desc_name cls key d Hw Ed).
      destruct (String.eqb k key) eqn:E; [apply String.eqb_eq in E; congruence | reflexivity].
    + simpl in Hl. unfold class_desc in Ed.
      destruct (cdict_get (class_dict cls) key) as [[f|t|]|]; try discriminate;
        (destruct (String.eqb key "time_point"); [|discriminate];
         destruct value; try discriminate; exact (IH _ _ _ k Hl Hk')).
Qed.

Lemma loop_undeclared (cls : MClass) (kw : list (string * PyVal)) (k : string) (v : PyVal) :
  In (k, v) kw -> class_desc cls k = None -> k <> "time_point" ->
  forall tp data, is_err (init_kwargs_loop cls tp data kw) = true.
Proof.
  intros Hin Hd Ht. induction kw as [|[key value] kw IH]; [contradiction|].
  intros tp data. destruct Hin as [Heq | Hin].
  - inversion Heq; subst key value. simpl. unfold class_desc in Hd.
    assert (E : String.eqb k "time_point" = false) by (apply String.eqb_neq; exact Ht).
    destruct (cdict_get (class_dict cls) k) as [[f|t|]|]; try discriminate;
      rewrite E; reflexivity.
  - destruct (class_desc cls key) as [d|] eqn:Ed.
    + rewrite (loop_step cls tp data key value kw d Ed).
      destruct (desc_set d data value); simpl; [apply IH, Hin | reflexivity].
    + simpl. unfold class_desc in Ed.
      destruct (cdict_get (class_dict cls) key) as [[f|t|]|]; try discriminate;
        (destruct (String.eqb key "time_point"); [|reflexivity];
         destruct value; try reflexivity; apply IH, Hin).
Qed.

Lemma loop_stores (cls : MClass) (kw : list (string * PyVal)) :
  class_wf cls = true -> NoDup (map fst kw) ->
  forall tp data inst, init_kwargs_loop cls tp data kw = Ok inst ->
  forall k v d, In (k, v) kw -> class_desc cls k = Some d ->
  is_err (desc_set d [] v) = false /\ dict_get (i_data inst) k = Some v.
Proof.
  intro Hw. induction kw as [|[key value] kw IH]; intros Hnd tp data inst Hl k v d Hin Hd;
    [contradiction|].
  simpl in Hnd. inversion Hnd as [|x l Hnotin Hnd']; subst.
  destruct (class_desc cls key) as [d0|] eqn:Ed0.
  - rewrite (loop_step cls tp data key value kw d0 Ed0), desc_set_data in Hl.
    destruct (desc_set d0 [] value) eqn:Es; simpl in Hl; [|discriminate].
    destruct Hin as [Heq | Hin].
    + inversion Heq; subst k v. rewrite Ed0 in Hd; inversion Hd; subst d0.
      rewrite Es. split; [reflexivity|].
      rewrite (loop_preserves cls kw Hw _ _ _ key Hl Hnotin), dict_get_set,
        (class_desc_name cls key d Hw Ed0), String.eqb_refl.
      reflexivity.
    + exact (IH Hnd' _ _ _ Hl k v d Hin Hd).
  - destruct Hin as [Heq | Hin]; [inversion Heq; subst; congruence|].
    simpl in Hl. unfold class_desc in Ed0.
    destruct (cdict_get (class_dict cls) key) as [[f|t|]|]; try discriminate;
      (destruct (String.eqb key "time_point"); [|discriminate];
       destruct value; try discriminate; exact (IH Hnd' _ _ _ Hl k v d Hin Hd)).
Qed.

Lemma cdict_set_wf (cd : list (string * ClassAttr)) (k : string) (a : ClassAttr) :
  forallb entry_wf cd = true -> entry_wf (k, a) = true ->
  forallb entry_wf (cdict_set cd k a) = true.
Proof.
  induction cd as [|[k' a'] cd IH]; simpl; intros H Ha; [rewrite Ha; reflexivity|].
  apply andb_true_iff in H as [H1 H2].
  destruct (String.eqb k k') eqn:E; simpl.
  - apply String.eqb_eq in E; subst. rewrite Ha, H2. reflexivity.
  - rewrite H1, IH; auto.
Qed.

Lemma meta_attrs_wf (cd : list (string * ClassAttr)) (attrs : list (string * BodyAttr)) :
  forallb entry_wf cd = true -> forallb entry_wf (meta_attrs cd attrs) = true.
Proof.
  revert cd. induction attrs as [|[n b] attrs IH]; intros cd H; simpl; [exact H|].
  destruct b as [c nm nl|nm nl|]; apply IH, cdict_set_wf; try exact H;
    unfold entry_wf; simpl; try apply String.eqb_refl; reflexivity.
Qed.

(** [cls(time_point)] with no keyword: [_data] holds at most the
    [time_point] entry a declared [time_point] descriptor writes. *)
Lemma init_no_kwargs (cls : MClass) (tp : PyVal) (inst : Instance) :
  class_wf cls = true -> my_custom_init cls tp [] = Ok inst ->
  i_cls inst = cls /\ (forall k, k <> "time_point" -> dict_get (i_data inst) k = None).
Proof.
  intros Hw. unfold my_custom_init. simpl.
  destruct (cdict_get (class_dict cls) "time_point") as [a|] eqn:E.
  2:{ simpl. intro H. inversion H; subst. split; reflexivity. }
  pose proof (cdict_get_wf _ _ a Hw E) as Ha. unfold entry_wf in Ha; simpl in Ha.
  destruct a as [f|t|].
  - pose proof (desc_set_data (DField f) [] tp) as D. cbn [desc_set desc_name] in D.
    destruct (field_set f [] tp) as [d|e]; simpl; intro H; [|discriminate].
    inversion H; subst. inversion D; subst. apply String.eqb_eq in Ha. rewrite Ha.
    split; [reflexivity|]. intros k Hk. simpl.
    apply String.eqb_neq in Hk. rewrite Hk. reflexivity.
  - pose proof (desc_set_data (DTag t) [] tp) as D. cbn [desc_set desc_name] in D.
    destruct (tag_set t [] tp) as [d|e]; simpl; intro H; [|discriminate].
    inversion H; subst. inversion D; subst. apply String.eqb_eq in Ha. rewrite Ha.
    split; [reflexivity|]. intros k Hk. simpl.
    apply String.eqb_neq in Hk. rewrite Hk. reflexivity.
  - simpl. intro H. inversion H; subst. split; reflexivity.
Qed.

End Init.

(** C10 (unknown keywords).  [my_custom_init] fails, producing no
    instance, as soon as a keyword names neither a field nor a tag of the
    class nor [time_point]; when it succeeds, every keyword naming a field
    or tag passed that descriptor's [__set__] checks and is stored under
    its name.  Classes built by [MeasurementMeta.__new__] keep each
    descriptor under its own name, as the second part assumes. *)
Theorem init_kwargs_validated :
  (forall cls tp kwargs k v,
     In (k, v) kwargs -> class_desc cls k = None -> k <> "time_point" ->
     is_err (my_custom_init cls tp kwargs) = true)
  /\ (forall cls tp kwargs inst,
        class_wf cls = true -> NoDup (map fst kwargs) ->
        my_custom_init cls tp kwargs = Ok inst ->
        forall k v d, In (k, v) kwargs -> class_desc cls k = Some d ->
        is_err (desc_set d [] v) = false /\ dict_get (i_data inst) k = Some v)
  /\ (forall name meta attrs, class_wf (meta_new name meta attrs) = true).
Proof.
  split; [|split].
  - intros cls tp kwargs k v Hin Hd Ht. unfold my_custom_init.
    destruct (existsb _ kwargs); [reflexivity|].
    destruct (match cdict_get (class_dict cls) "time_point" with
              | Some (CField f) => field_set f [] tp
              | Some (CTag t) => tag_set t [] tp
              | _ => Ok [] end) as [data|e]; simpl; [|reflexivity].
    exact (Init.loop_undeclared cls kwargs k v Hin Hd Ht tp data).
  - intros cls tp kwargs inst Hw Hnd Hi. unfold my_custom_init in Hi.
    destruct (existsb _ kwargs); [discriminate|].
    destruct (match cdict_get (class_dict cls) "time_point" with
              | Some (CField f) => field_set f [] tp
              | Some (CTag t) => tag_set t [] tp
              | _ => Ok [] end) as [data|e]; simpl in Hi; [|discriminate].
    exact (Init.loop_stores cls kwargs Hw Hnd tp data inst Hi).
  - intros name meta attrs. unfold class_wf, meta_new. simpl.
    apply Init.cdict_set_wf; [|reflexivity].
    apply Init.meta_attrs_wf. reflexivity.
Qed.

(** ** Case conventions: [pinform/utils.py] *)

Module Utils.

(** A Python [str] is its list of code points. *)
Definition pystr := list Z.

Definition cps (s : string) : pystr :=
  map (fun a => Z.of_nat (nat_of_ascii a)) (list_ascii_of_string s).

(** [str.islower], [str.isupper], [str.isalnum], [str.lower] and
    [str.upper] on a one-character string, as CPython reads them from the
    Unicode character database; [lower] and [upper] may return several
    code points (['ß'.upper()] is ['SS']). *)
Record CharDb : Type := mkCharDb {
  islower : Z -> bool;
  isupper : Z -> bool;
  isalnum : Z -> bool;
  lower : Z -> pystr;
  upper : Z -> pystr }.

Definition is_ascii_lower (c : Z) : bool := (97 <=? c) && (c <=? 122).
Definition is_ascii_upper (c : Z) : bool := (65 <=? c) && (c <=? 90).
Definition is_ascii_digit (c : Z) : bool := (48 <=? c) && (c <=? 57).
Definition is_ascii_alnum (c : Z) : bool :=
  is_ascii_lower c || is_ascii_upper c || is_ascii_digit c.

(** The database on ASCII, where every version of Unicode agrees. *)
Definition ascii_agrees (db : CharDb) : Prop :=
  forall c, 0 <= c < 128 ->
  islower db c = is_ascii_lower c
  /\ isupper db c = is_ascii_upper c
  /\ isalnum db c = is_ascii_alnum c
  /\ lower db c = [if is_ascii_upper c then c + 32 else c]
  /\ upper db c = [if is_ascii_lower c then c - 32 else c].

Section Conv.
Variable db : CharDb.

(** The generator of [dromedary_to_underline]: each character [x] becomes
    [x] when [x.isalnum() and x.islower()], else ['_' + x.lower()]. *)
Fixpoint d2u_join (s : pystr) : pystr :=
  match s with
  | [] => []
  | x :: r =>
      app (if isalnum db x && islower db x then [x] else 95 :: lower db x) (d2u_join r)
  end.

(** [dromedary_to_underline]: [s[0]] raises on the empty string; when the
    first character is not lower case the first character of the join is
    cut off ([[1:]]). *)
Definition dromedary_to_underline (s : pystr) : result pystr :=
  match s with
  | [] => Err IndexError
  | c :: _ => if islower db c then Ok (d2u_join s) else Ok (tl (d2u_join s))
  end.

(** The loop of [underline_to_dromedary] with its [underline] flag: an
    underscore sets it, the next alphanumeric is upper-cased and clears
    it, other alphanumerics are lower-cased, anything else is dropped. *)
Fixpoint u2d_go (s : pystr) (underline : bool) : pystr :=
  match s with
  | [] => []
  | x :: r =>
      let underline1 := if Z.eqb x 95 then true else underline in
      if isalnum db x then
        if underline1 then app (upper db x) (u2d_go r false)
        else app (lower db x) (u2d_go r underline1)
      else u2d_go r underline1
  end.

Definition underline_to_dromedary (s : pystr) : pystr := u2d_go s false.

End Conv.

(** Strings of the statements. *)
Definition all_ascii (s : pystr) : bool := forallb (fun c => (0 <=? c) && (c <? 128)) s.
Definition all_ascii_alnum (s : pystr) : bool := forallb is_ascii_alnum s.

(** A snake-case name: ASCII lower-case letters in non-empty runs joined
    by single underscores. *)
Fixpoint snake_rest (s : pystr) : bool :=
  match s with
  | [] => true
  | c :: r =>
      if Z.eqb c 95 then
        match r with
        | c' :: r' => is_ascii_lower c' && snake_rest r'
        | [] => false
        end
      else is_ascii_lower c && snake_rest r
  end.

Definition snake_ok (s : pystr) : bool :=
  match s with
  | c :: r => is_ascii_lower c && snake_rest r
  | [] => false
  end.

(** A database in agreement with CPython on ASCII and on ['ß'] (U+00DF):
    lower case, alphanumeric, upper-cased to ['SS']. *)
Definition sample_db : CharDb :=
  mkCharDb (fun c => is_ascii_lower c || Z.eqb c 223) is_ascii_upper
    (fun c => is_ascii_alnum c || Z.eqb c 223)
    (fun c => [if is_ascii_upper c then c + 32 else c])
    (fun c => if Z.eqb c 223 then [83; 83] else [if is_ascii_lower c then c - 32 else c]).

Ltac zbool :=
  unfold is_ascii_alnum, is_ascii_lower, is_ascii_upper, is_ascii_digit;
  repeat (match goal with
          | |- context [Z.leb ?a ?b] =>
              first [ rewrite (proj2 (Z.leb_le a b)) by lia
                    | rewrite (proj2 (Z.leb_gt a b)) by lia ]
          | |- context [Z.eqb ?a ?b] =>
              first [ rewrite (proj2 (Z.eqb_eq a b)) by lia
                    | rewrite (proj2 (Z.eqb_neq a b)) by lia ]
          end; cbn [andb orb negb]);
  simpl; repeat split; try reflexivity; try (repeat f_equal; lia).

Lemma sample_db_agrees : ascii_agrees sample_db.
Proof.
  intros c Hc. unfold sample_db; cbn [islower isupper isalnum lower upper].
  rewrite (proj2 (Z.eqb_neq c 223)) by lia. rewrite !orb_false_r.
  repeat split; reflexivity.
Qed.

Lemma lower_bounds (c : Z) : is_ascii_lower c = true -> 97 <= c <= 122.
Proof.
  unfold is_ascii_lower. intro H. apply andb_true_iff in H as [H1 H2].
  apply Z.leb_le in H1. apply Z.leb_le in H2. lia.
Qed.

Lemma upper_bounds (c : Z) : is_ascii_upper c = true -> 65 <= c <= 90.
Proof.
  unfold is_ascii_upper. intro H. apply andb_true_iff in H as [H1 H2].
  apply Z.leb_le in H1. apply Z.leb_le in H2. lia.
Qed.

Lemma alnum_bounds (c : Z) :
  is_ascii_alnum c = true ->
  97 <= c <= 122 \/ 65 <= c <= 90 \/ 48 <= c <= 57.
Proof.
  unfold is_ascii_alnum, is_ascii_digit. intro H.
  apply orb_true_iff in H as [H|H]; [apply orb_true_iff in H as [H|H]|].
  - left. apply lower_bounds, H.
  - right; left. apply upper_bounds, H.
  - right; right. apply andb_true_iff in H as [H1 H2].
    apply Z.leb_le in H1. apply Z.leb_le in H2. lia.
Qed.

Section Facts.
Variable db : CharDb.
Hypothesis Hdb : ascii_agrees db.

Lemma underscore_flags : isalnum db 95 = false.
Proof. destruct (Hdb 95 ltac:(lia)) as [_ [_ [A _]]]. rewrite A. reflexivity. Qed.

Lemma lower_char_flags (c : Z) :
  is_ascii_lower c = true ->
  isalnum db c = true /\ islower db c = true /\ Z.eqb c 95 = false
  /\ lower db c = [c] /\ upper db c = [c - 32].
Proof.
  intro Hc. pose proof (lower_bounds c Hc) as B.
  destruct (Hdb c ltac:(lia)) as [A1 [_ [A3 [A4 A5]]]].
  rewrite A1, A3, A4, A5. zbool.
Qed.

Lemma upper_of_lower_flags (c : Z) :
  is_ascii_lower c = true ->
  isalnum db (c - 32) = true /\ islower db (c - 32) = false /\ lower db (c - 32) = [c].
Proof.
  intro Hc. pose proof (lower_bounds c Hc) as B.
  destruct (Hdb (c - 32) ltac:(lia)) as [A1 [_ [A3 [A4 _]]]].
  rewrite A1, A3, A4. zbool.
Qed.

Lemma alnum_not_lower_flags (c : Z) :
  is_ascii_alnum c = true -> is_ascii_lower c = false ->
  exists c', isalnum db c = true /\ islower db c = false /\ lower db c = [c']
  /\ isalnum db c' = true /\ Z.eqb c' 95 = false /\ upper db c' = [c].
Proof.
  intros Hc Hl. pose proof (alnum_bounds c Hc) as B.
  assert (B' : 65 <= c <= 90 \/ 48 <= c <= 57).
  { destruct B as [B|B]; [|exact B]. exfalso.
    unfold is_ascii_lower in Hl. rewrite (proj2 (Z.leb_le _ _)) in Hl by lia.
    rewrite (proj2 (Z.leb_le _ _)) in Hl by lia. discriminate. }
  destruct (Hdb c ltac:(lia)) as [A1 [_ [A3 [A4 _]]]].
  destruct B' as [B'|B'].
  - exists (c + 32).
    destruct (Hdb (c + 32) ltac:(lia)) as [C1 [_ [C3 [_ C5]]]].
    rewrite A1, A3, A4, C3, C5. zbool.
  - exists c. rewrite A1, A3, A4.
    destruct (Hdb c ltac:(lia)) as [_ [_ [_ [_ C5]]]]. rewrite C5. zbool.
Qed.

Lemma alnum_ascii_cases (c : Z) :
  0 <= c < 128 -> isalnum db c = true ->
  all_ascii_alnum (upper db c) = true /\ all_ascii_alnum (lower db c) = true.
Proof.
  intros Hr Ha. destruct (Hdb c Hr) as [_ [_ [A3 [A4 A5]]]].
  rewrite A3 in Ha. rewrite A4, A5. pose proof (alnum_bounds c Ha) as B.
  unfold all_ascii_alnum. simpl. rewrite !andb_true_r.
  destruct B as [B|[B|B]]; zbool.
Qed.

Lemma snake_rest_roundtrip :
  forall s, snake_rest s = true -> d2u_join db (u2d_go db s false) = s.
Proof.
  fix IH 1. intros [|c r] H; [reflexivity|].
  simpl in H. destruct (Z.eqb c 95) eqn:Ec.
  - apply Z.eqb_eq in Ec; subst c.
    destruct r as [|c' r']; [discriminate|].
    apply andb_true_iff in H as [Hc' Hr'].
    destruct (upper_of_lower_flags c' Hc') as [Ha [Hl Hlo]].
    destruct (lower_char_flags c' Hc') as [Ha' [_ [Hu' [_ Hup]]]].
    cbn [u2d_go]. rewrite underscore_flags. cbn [Z.eqb Pos.eqb].
    rewrite Hu', Ha', Hup. cbn [app d2u_join]. rewrite Ha, Hl. simpl.
    rewrite Hlo. simpl. rewrite (IH r' Hr'). reflexivity.
  - apply andb_true_iff in H as [Hc Hr].
    destruct (lower_char_flags c Hc) as [Ha [Hl [_ [Hlo _]]]].
    cbn [u2d_go]. rewrite Ec, Ha, Hlo. cbn [app d2u_join]. rewrite Ha, Hl. simpl.
    rewrite (IH r Hr). reflexivity.
Qed.

Lemma camel_rest_roundtrip (s : pystr) :
  all_ascii_alnum s = true -> u2d_go db (d2u_join db s) false = s.
Proof.
  induction s as [|c r IH]; intro H; [reflexivity|].
  unfold all_ascii_alnum in H; simpl in H. apply andb_true_iff in H as [Hc Hr].
  cbn [d2u_join]. destruct (is_ascii_lower c) eqn:Hl.
  - destruct (lower_char_flags c Hl) as [Ha [Hlw [Hu [Hlo _]]]].
    rewrite Ha, Hlw. simpl. rewrite Hu, Ha, Hlo. simpl. rewrite (IH Hr). reflexivity.
  - destruct (alnum_not_lower_flags c Hc Hl) as [c' [Ha [Hlw [Hlo [Ha' [Hu' Hup]]]]]].
    rewrite Ha, Hlw, Hlo. simpl. rewrite underscore_flags. simpl.
    rewrite Hu', Ha', Hup. simpl. rewrite (IH Hr). reflexivity.
Qed.

Lemma upper_to_lower_flags (c : Z) :
  is_ascii_upper c = true ->
  islower db c = false /\ lower db c = [c + 32]
  /\ isalnum db (c + 32) = true /\ islower db (c + 32) = true.
Proof.
  intro Hc. pose proof (upper_bounds c Hc) as B.
  destruct (Hdb c ltac:(lia)) as [A1 [_ [_ [A4 _]]]].
  destruct (Hdb (c + 32) ltac:(lia)) as [C1 [_ [C3 _]]].
  rewrite A1, A4, C1, C3. zbool.
Qed.

End Facts.

End Utils.

(** For an ASCII string, [underline_to_dromedary] (the dataframe column
    name of a field) only produces ASCII letters and digits: underscores
    and every other character are dropped. *)
Theorem underline_to_dromedary_alnum (db : Utils.CharDb) (s : Utils.pystr) :
  Utils.ascii_agrees db -> Utils.all_ascii s = true ->
  Utils.all_ascii_alnum (Utils.underline_to_dromedary db s) = true.
Proof.
  intros Hdb. unfold Utils.underline_to_dromedary. generalize false.
  induction s as [|c r IH]; intros b Hs; [reflexivity|].
  unfold Utils.all_ascii in Hs; simpl in Hs. apply andb_true_iff in Hs as [Hc Hr].
  apply andb_true_iff in Hc as [H1 H2]. apply Z.leb_le in H1. apply Z.ltb_lt in H2.
  cbn [Utils.u2d_go].
  destruct (Utils.isalnum db c) eqn:Ha; [|apply IH, Hr].
  destruct (Utils.alnum_ascii_cases db Hdb c ltac:(lia) Ha) as [Hu Hl].
  unfold Utils.all_ascii_alnum in *.
  destruct (if Z.eqb c 95 then true else b); rewrite forallb_app.
  - rewrite Hu. apply IH, Hr.
  - rewrite Hl. apply IH, Hr.
Qed.

Lemma underline_to_dromedary_alnum_witness :
  Utils.all_ascii (Utils.cps "cpu_load-2!") = true
  /\ Utils.underline_to_dromedary Utils.sample_db (Utils.cps "cpu_load-2!") = Utils.cps "cpuLoad2"
  /\ Utils.all_ascii_alnum (Utils.underline_to_dromedary Utils.sample_db (Utils.cps "cpu_load-2!"))
     = true.
Proof.
  split; [vm_compute; reflexivity|]. split; [vm_compute; reflexivity|].
  apply underline_to_dromedary_alnum; [exact Utils.sample_db_agrees | vm_compute; reflexivity].
Defined.

(** A snake-case ASCII name survives the trip to a column name and back:
    [dromedary_to_underline(underline_to_dromedary(s)) == s]. *)
Theorem snake_column_roundtrip (db : Utils.CharDb) (s : Utils.pystr) :
  Utils.ascii_agrees db -> Utils.snake_ok s = true ->
  Utils.dromedary_to_underline db (Utils.underline_to_dromedary db s) = Ok s.
Proof.
  intros Hdb. destruct s as [|c r]; [discriminate|]. intro H. simpl in H.
  apply andb_true_iff in H as [Hc Hr].
  destruct (Utils.lower_char_flags db Hdb c Hc) as [Ha [Hl [Hu [Hlo _]]]].
  unfold Utils.underline_to_dromedary.
  assert (E1 : Utils.u2d_go db (c :: r) false = c :: Utils.u2d_go db r false).
  { cbn [Utils.u2d_go]. rewrite Hu, Ha, Hlo. reflexivity. }
  rewrite E1. unfold Utils.dromedary_to_underline. rewrite Hl.
  assert (E2 : Utils.d2u_join db (c :: Utils.u2d_go db r false)
               = c :: Utils.d2u_join db (Utils.u2d_go db r false)).
  { cbn [Utils.d2u_join]. rewrite Ha, Hl. reflexivity. }
  rewrite E2, (Utils.snake_rest_roundtrip db Hdb r Hr). reflexivity.
Qed.

(** ["cpu_load_avg"] round-trips; ["a_ß"], not ASCII, does not: it gives
    ["aSS"], then ["a_s_s"]. *)
Lemma snake_column_roundtrip_witness :
  Utils.snake_ok (Utils.cps "cpu_load_avg") = true
  /\ Utils.dromedary_to_underline Utils.sample_db
       (Utils.underline_to_dromedary Utils.sample_db (Utils.cps "cpu_load_avg"))
     = Ok (Utils.cps "cpu_load_avg")
  /\ Utils.underline_to_dromedary Utils.sample_db [97; 95; 223] = [97; 83; 83]
  /\ Utils.dromedary_to_underline Utils.sample_db [97; 83; 83] = Ok [97; 95; 115; 95; 115].
Proof.
  split; [vm_compute; reflexivity|]. split.
  - apply snake_column_roundtrip; [exact Utils.sample_db_agrees | vm_compute; reflexivity].
  - split; vm_compute; reflexivity.
Defined.

(** An ASCII name of letters and digits starting with a lower-case letter
    survives the trip to snake case and back:
    [underline_to_dromedary(dromedary_to_underline(s)) == s]. *)
Theorem camel_name_roundtrip (db : Utils.CharDb) (c : Z) (s : Utils.pystr) :
  Utils.ascii_agrees db -> Utils.is_ascii_lower c = true -> Utils.all_ascii_alnum s = true ->
  bind_result (Utils.dromedary_to_underline db (c :: s))
    (fun u => Ok (Utils.underline_to_dromedary db u)) = Ok (c :: s).
Proof.
  intros Hdb Hc Hs.
  destruct (Utils.lower_char_flags db Hdb c Hc) as [_ [Hl _]].
  unfold Utils.dromedary_to_underline. rewrite Hl. simpl bind_result.
  unfold Utils.underline_to_dromedary.
  apply f_equal. apply (Utils.camel_rest_roundtrip db Hdb (c :: s)).
  unfold Utils.all_ascii_alnum in *. simpl.
  unfold Utils.is_ascii_alnum at 1. rewrite Hc. exact Hs.
Qed.

Lemma camel_name_roundtrip_witness :
  Utils.is_ascii_lower 99 = true /\ Utils.all_ascii_alnum (Utils.cps "puLoad2") = true
  /\ bind_result (Utils.dromedary_to_underline Utils.sample_db (Utils.cps "cpuLoad2"))
       (fun u => Ok (Utils.underline_to_dromedary Utils.sample_db u)) = Ok (Utils.cps "cpuLoad2").
Proof.
  split; [reflexivity|]. split; [vm_compute; reflexivity|].
  exact (camel_name_roundtrip Utils.sample_db 99 (Utils.cps "puLoad2")
           Utils.sample_db_agrees eq_refl eq_refl).
Defined.

(** ** Name resolution and descriptor assignment: further properties *)

Module NameFacts.

(** No closing parenthesis and no newline in a text. *)
Fixpoint clean (s : string) : bool :=
  match s with
  | EmptyString => true
  | String c r =>
      negb (Ascii.eqb c ")"%char) && negb (Ascii.eqb c (ascii_of_nat 10)) && clean r
  end.

Lemma clean_app (a b : string) : clean (a ++ b) = clean a && clean b.
Proof.
  induction a as [|c a IH]; simpl; [reflexivity|].
  rewrite IH. repeat rewrite andb_assoc. reflexivity.
Qed.

Lemma findall_go_occurs (s : string) :
  forall acc t,
  (forall a, acc = Some a -> clean a = true) ->
  In t (findall_go s acc) ->
  clean t = true
  /\ ((exists x b, s = x ++ "(" ++ t ++ ")" ++ b)
      \/ (exists a u b, acc = Some a /\ t = a ++ u /\ s = u ++ ")" ++ b)).
Proof.
  induction s as [|c rest IH]; intros acc t Hacc Hin; [contradiction|].
  destruct acc as [a|]; simpl in Hin.
  - destruct (Ascii.eqb c ")"%char) eqn:E1.
    + apply Ascii.eqb_eq in E1; subst c.
      destruct Hin as [Ht | Hin].
      * subst t. split; [exact (Hacc a eq_refl)|]. right. exists a, "", rest.
        split; [reflexivity|]. split; [|reflexivity].
        clear. induction a as [|x a IHa]; simpl; [reflexivity | rewrite <- IHa; reflexivity].
      * destruct (IH None t ltac:(discriminate) Hin) as [Hc [[x [b ->]] | [a' [_ [_ [H _]]]]]];
          [|discriminate].
        split; [exact Hc|]. left. exists (String ")" x), b. reflexivity.
    + destruct (Ascii.eqb c (ascii_of_nat 10)) eqn:E2.
      * destruct (IH None t ltac:(discriminate) Hin) as [Hc [[x [b ->]] | [a' [_ [_ [H _]]]]]];
          [|discriminate].
        split; [exact Hc|]. left. exists (String c x), b. reflexivity.
      * assert (Hca : clean (a ++ String c "") = true).
        { rewrite clean_app, (Hacc a eq_refl). simpl. rewrite E1, E2. reflexivity. }
        destruct (IH (Some (a ++ String c "")) t
                    (fun a' H => ltac:(inversion H; subst a'; exact Hca)) Hin)
          as [Hc [[x [b ->]] | [a' [u [b [Ha' [Ht Hr]]]]]]].
        -- split; [exact Hc|]. left. exists (String c x), b. reflexivity.
        -- inversion Ha'; subst a' rest t.
           split; [exact Hc|]. right. exists a, (String c u), b.
           split; [reflexivity|]. split; [rewrite str_app_assoc; reflexivity | reflexivity].
  - destruct (Ascii.eqb c "("%char) eqn:E1.
    + apply Ascii.eqb_eq in E1; subst c.
      destruct (IH (Some "") t (fun a' H => ltac:(inversion H; reflexivity)) Hin)
        as [Hc [[x [b ->]] | [a' [u [b [Ha' [Ht Hr]]]]]]].
      * split; [exact Hc|]. left. exists (String "(" x), b. reflexivity.
      * inversion Ha'; subst a'. simpl in Ht. subst u rest.
        split; [exact Hc|]. left. exists "", b. reflexivity.
    + destruct (IH None t ltac:(discriminate) Hin) as [Hc [[x [b ->]] | [a' [_ [_ [H _]]]]]];
        [|discriminate].
      split; [exact Hc|]. left. exists (String c x), b. reflexivity.
Qed.

Lemma get_name_loop_ok (names : list string) (tags : option dict) :
  get_name_loop names tags = Ok tt <->
  (forall t, In t names -> exists d s, tags = Some d /\ dict_get d t = Some (VStr s)).
Proof.
  induction names as [|n names IH]; simpl.
  - split; [intros _ t []|reflexivity].
  - destruct tags as [d|].
    + destruct (dict_get d n) as [v|] eqn:Ev.
      * destruct v; try (split; [discriminate|]; intro H;
          destruct (H n (or_introl eq_refl)) as [d' [s [Hd Hs]]];
          inversion Hd; subst d'; congruence).
        rewrite IH. split.
        -- intros H t [<- | Hin]; [eauto | apply H, Hin].
        -- intros H t Hin. apply H. right. exact Hin.
      * split; [discriminate|]. intro H.
        destruct (H n (or_introl eq_refl)) as [d' [s [Hd Hs]]].
        inversion Hd; subst d'. congruence.
    + split; [discriminate|]. intro H.
      destruct (H n (or_introl eq_refl)) as [d' [s [Hd _]]]. discriminate.
Qed.

End NameFacts.

(** ** Constructors of the option fields ([fields/__init__.py]) *)

Module FieldInit.

(** The [options] argument of [MultipleChoiceStringField] and
    [MultipleChoiceIntegerField]: [None], a [list], a [set] (its elements
    listed once each, in iteration order) or any other object. *)
Inductive OptionsArg : Type :=
  | OA_None
  | OA_List (l : list PyVal)
  | OA_Set (l : list PyVal)
  | OA_Other.

(** The [enum] argument of [EnumStringField] and [EnumIntegerField]:
    [None], an object that is not a class ([issubclass] raises
    [TypeError]), a class that is not an [Enum], or an [Enum] given by the
    values of its members in definition order (aliases are not members). *)
Inductive EnumArg : Type :=
  | EA_None
  | EA_NotClass
  | EA_NotEnum
  | EA_Enum (values : list PyVal).

(** [==] on the values the option lists hold: [bool] is a subclass of
    [int] ([True == 1]); floats are compared by their representation, so
    [1 == 1.0] is not seen. A float option is refused in every case, so
    this only changes which of the constructor's exceptions is raised.
    Other objects are taken as distinct. *)
Definition py_eq (a b : PyVal) : bool :=
  match a, b with
  | VNone, VNone => true
  | VInt x, VInt y => Z.eqb x y
  | VInt x, VBool c => Z.eqb x (if c then 1 else 0)
  | VBool c, VInt x => Z.eqb (if c then 1 else 0) x
  | VBool x, VBool y => Bool.eqb x y
  | VStr x, VStr y => String.eqb x y
  | VFloat x, VFloat y => Z.eqb x y
  | VDatetime x, VDatetime y => Z.eqb x y
  | _, _ => false
  end.

(** [len(options) != len(set(options))] for a list. *)
Fixpoint has_dup (l : list PyVal) : bool :=
  match l with
  | [] => false
  | x :: r => existsb (py_eq x) r || has_dup r
  end.

Definition str_of (v : PyVal) : string :=
  match v with VStr s => s | _ => "" end.

(** [int] value of an [isinstance(v, int)] value. *)
Definition int_of (v : PyVal) : Z :=
  match v with VInt z => z | VBool b => if b then 1 else 0 | _ => 0 end.

(** The checks every option constructor runs on the option values, in the
    code's order: empty, duplicates, element type. [dup] is false for a
    [set], where [len(set(options)) == len(options)]. The messages are
    the code's, without the offending value. *)
Definition check_options (m_empty m_dup m_type : string) (dup : bool)
    (ok : PyVal -> bool) (l : list PyVal) : result unit :=
  if Nat.eqb (length l) 0 then Err (GenericException m_empty)
  else if dup then Err (GenericException m_dup)
  else if negb (forallb ok l) then Err (GenericException m_type)
  else Ok tt.

Definition options_values (kind : string) (options : OptionsArg)
    : result (list PyVal * bool) :=
  match options with
  | OA_None => Err (GenericException ("Null options passed for multiple choice " ++ kind ++ " field"))
  | OA_Other => Err (GenericException ("Invalid type for options passed for multiple choice " ++ kind ++ " field, must be either set or list but found "))
  | OA_List l => Ok (l, has_dup l)
  | OA_Set l => Ok (l, false)
  end.

(** [MultipleChoiceStringField.__init__]. *)
Definition mc_string_init (options : OptionsArg) (name : string) (null : bool)
    : result Field :=
  ld <- options_values "string" options ;;
  _ <- check_options "Empty options passed for enum string field"
         "Duplicate values passed for options of multiple choice string field"
         "Invalid value in options of multiple choice string field, "
         (snd ld) isinstance_str (fst ld) ;;
  Ok (mkField (MultipleChoiceStringField (map str_of (fst ld))) name null).

(** [MultipleChoiceIntegerField.__init__]. *)
Definition mc_int_init (options : OptionsArg) (name : string) (null : bool)
    : result Field :=
  ld <- options_values "integer" options ;;
  _ <- check_options "Empty options passed for multiple choice integer field"
         "Duplicate values passed for options of multiple choice integer field"
         "Invalid value in options of multiple choice integer field, "
         (snd ld) isinstance_int (fst ld) ;;
  Ok (mkField (MultipleChoiceIntegerField (map int_of (fst ld))) name null).

Definition enum_values (enum : EnumArg) : result (list PyVal) :=
  match enum with
  | EA_None => Err (GenericException "Null enum passed for enum string field")
  | EA_NotClass => Err TypeError
  | EA_NotEnum => Err (GenericException "Passed enum class must be a subclass of Enum")
  | EA_Enum vs => Ok vs
  end.

(** [EnumStringField.__init__]. *)
Definition enum_string_init (enum : EnumArg) (name : string) (null : bool)
    : result Field :=
  l <- enum_values enum ;;
  _ <- check_options "Enum with no values for enum string field"
         "Duplicate values passed for options of enum string field"
         "Invalid value in enum string field, "
         (has_dup l) isinstance_str l ;;
  Ok (mkField (EnumStringField (map str_of l)) name null).

(** [EnumIntegerField.__init__]. *)
Definition enum_int_init (enum : EnumArg) (name : string) (null : bool)
    : result Field :=
  l <- enum_values enum ;;
  _ <- check_options "Enum with no values passed for enum integer field"
         "Duplicate values passed for options of enum integer field"
         "Invalid value in enum integer field, "
         (has_dup l) isinstance_int l ;;
  Ok (mkField (EnumIntegerField (map int_of l)) name null).

Lemma check_options_ok m1 m2 m3 dup ok l :
  check_options m1 m2 m3 dup ok l = Ok tt <->
  l <> [] /\ dup = false /\ forallb ok l = true.
Proof.
  unfold check_options. destruct l as [|x l]; simpl.
  - split; [discriminate|]. intros [H _]. congruence.
  - destruct dup; [split; [discriminate|]; intros [_ [H _]]; discriminate|].
    destruct (ok x && forallb ok l); simpl.
    + split; [intros _; split; [discriminate|auto] | reflexivity].
    + split; [discriminate|]. intros [_ [_ H]]. discriminate.
Qed.

Lemma all_str (l : list PyVal) :
  forallb isinstance_str l = true -> l = map VStr (map str_of l).
Proof.
  induction l as [|[] l IH]; simpl; try discriminate; [reflexivity|].
  intro H. f_equal. apply IH, H.
Qed.

Lemma py_eq_int (x y : PyVal) :
  isinstance_int x = true -> isinstance_int y = true ->
  py_eq x y = Z.eqb (int_of x) (int_of y).
Proof.
  destruct x, y; simpl; try discriminate; intros _ _; try reflexivity;
    repeat match goal with b : bool |- _ => destruct b end; reflexivity.
Qed.

Lemma all_int (l : list PyVal) :
  forallb isinstance_int l = true ->
  has_dup l = false <-> NoDup (map int_of l).
Proof.
  induction l as [|x l IH]; simpl; intro H.
  - split; [constructor|reflexivity].
  - apply andb_prop in H. destruct H as [Hx Hl].
    assert (Hm : existsb (py_eq x) l = true <-> In (int_of x) (map int_of l)).
    { clear IH. rewrite existsb_exists, in_map_iff.
      pose proof (forallb_forall isinstance_int l) as [F _]. specialize (F Hl).
      split.
      - intros [y [Hy Heq]]. exists y. split; [|exact Hy].
        rewrite (py_eq_int x y Hx (F y Hy)) in Heq. symmetry. apply Z.eqb_eq, Heq.
      - intros [y [Heq Hy]]. exists y. split; [exact Hy|].
        rewrite (py_eq_int x y Hx (F y Hy)). apply Z.eqb_eq. congruence. }
    rewrite orb_false_iff, (IH Hl). split.
    + intros [H1 H2]. constructor; [|exact H2].
      intro Hin. apply Hm in Hin. congruence.
    + intro Hn. inversion Hn as [|a b Hnin Hnd]; subst. split; [|exact Hnd].
      destruct (existsb (py_eq x) l) eqn:E; [|reflexivity].
      exfalso. apply Hnin, Hm. reflexivity.
Qed.

Lemma str_dup (strs : list string) :
  has_dup (map VStr strs) = false <-> NoDup strs.
Proof.
  induction strs as [|s strs IH]; simpl.
  - split; [constructor|reflexivity].
  - assert (Hm : existsb (py_eq (VStr s)) (map VStr strs) = true <-> In s strs).
    { rewrite existsb_exists. split.
      - intros [y [Hy Heq]]. apply in_map_iff in Hy. destruct Hy as [s' [<- Hs']].
        simpl in Heq. apply String.eqb_eq in Heq. subst. exact Hs'.
      - intro Hin. exists (VStr s). split; [apply in_map, Hin | apply String.eqb_refl]. }
    rewrite orb_false_iff, IH. split.
    + intros [H1 H2]. constructor; [|exact H2]. intro Hin. apply Hm in Hin. congruence.
    + intro Hn. inversion Hn; subst. split; [|assumption].
      destruct (existsb _ _) eqn:E; [|reflexivity]. exfalso. apply H1, Hm. reflexivity.
Qed.

End FieldInit.

(** ** Serialisation: [get_field_names], [get_tag_names], [get_cli_format] *)

Module Serial.

(** [Measurement.get_field_names(cls)]: the [name] of every [Field] of
    the class dict, in its order. *)
Fixpoint get_field_names_of (cd : list (string * ClassAttr)) : list string :=
  match cd with
  | [] => []
  | (_, CField f) :: rest => f_name f :: get_field_names_of rest
  | _ :: rest => get_field_names_of rest
  end.

(** [Measurement.get_tag_names(cls)]. *)
Fixpoint get_tag_names_of (cd : list (string * ClassAttr)) : list string :=
  match cd with
  | [] => []
  | (_, CTag t) :: rest => t_name t :: get_tag_names_of rest
  | _ :: rest => get_tag_names_of rest
  end.

Definition get_field_names (cls : MClass) : list string := get_field_names_of (class_dict cls).
Definition get_tag_names (cls : MClass) : list string := get_tag_names_of (class_dict cls).

Lemma field_values_dict_get (i : Instance) (cd : list (string * ClassAttr)) :
  forall acc d k, field_values_dict i cd acc = Ok d ->
  dict_get d k = if existsb (String.eqb k) (get_field_names_of cd)
                 then dict_get (i_data i) k else dict_get acc k.
Proof.
  induction cd as [|[k0 a] cd IH]; intros acc d k H; simpl in H |- *.
  - inversion H; reflexivity.
  - destruct a as [f|t|]; try (exact (IH acc d k H)).
    unfold data_get in H. destruct (dict_get (i_data i) (f_name f)) as [v|] eqn:Ev;
      simpl in H; [|discriminate].
    rewrite (IH _ _ k H), dict_get_set. simpl.
    destruct (String.eqb k (f_name f)) eqn:E; simpl;
      destruct (existsb (String.eqb k) (get_field_names_of cd)); try reflexivity.
    apply String.eqb_eq in E; subst. symmetry. exact Ev.
Qed.

Lemma tag_values_dict_get (i : Instance) (cd : list (string * ClassAttr)) :
  forall acc d k, tag_values_dict i cd acc = Ok d ->
  dict_get d k = if existsb (String.eqb k) (get_tag_names_of cd)
                 then dict_get (i_data i) k else dict_get acc k.
Proof.
  induction cd as [|[k0 a] cd IH]; intros acc d k H; simpl in H |- *.
  - inversion H; reflexivity.
  - destruct a as [f|t|]; try (exact (IH acc d k H)).
    unfold data_get in H. destruct (dict_get (i_data i) (t_name t)) as [v|] eqn:Ev;
      simpl in H; [|discriminate].
    rewrite (IH _ _ k H), dict_get_set. simpl.
    destruct (String.eqb k (t_name t)) eqn:E; simpl;
      destruct (existsb (String.eqb k) (get_tag_names_of cd)); try reflexivity.
    apply String.eqb_eq in E; subst. symmetry. exact Ev.
Qed.

Lemma fields_and_values_acc (i : Instance) (cd : list (string * ClassAttr)) :
  forall acc l, fields_and_values i cd acc = Ok l -> forall x, In x acc -> In x l.
Proof.
  induction cd as [|[k1 a1] cd IH]; intros acc l H x Hx; simpl in H.
  - inversion H; subst. apply in_rev in Hx. exact Hx.
  - destruct a1 as [f1|t1|]; try (exact (IH _ _ H x Hx)).
    destruct (data_get i (f_name f1)); simpl in H; [|discriminate].
    apply (IH _ _ H). right. exact Hx.
Qed.

Lemma fields_and_values_in (i : Instance) (cd : list (string * ClassAttr)) :
  forall acc l k f, fields_and_values i cd acc = Ok l -> In (k, CField f) cd ->
  exists v, dict_get (i_data i) (f_name f) = Some v /\ In (f, v) l.
Proof.
  induction cd as [|[k0 a] cd IH]; intros acc l k f H Hin; [contradiction|].
  simpl in H. destruct Hin as [He | Hin].
  - inversion He; subst. unfold data_get in H.
    destruct (dict_get (i_data i) (f_name f)) as [v|] eqn:Ev; simpl in H; [|discriminate].
    exists v. split; [reflexivity|].
    apply (fields_and_values_acc i cd _ _ H). left. reflexivity.
  - destruct a as [f0|t0|]; try (exact (IH _ _ _ _ H Hin)).
    destruct (data_get i (f_name f0)); simpl in H; [|discriminate].
    exact (IH _ _ _ _ H Hin).
Qed.

Lemma fields_and_values_missing (i : Instance) (cd : list (string * ClassAttr)) :
  forall acc k f, In (k, CField f) cd -> dict_get (i_data i) (f_name f) = None ->
  exists k', fields_and_values i cd acc = Err (KeyError k').
Proof.
  induction cd as [|[k0 a] cd IH]; intros acc k f Hin Hn; [contradiction|].
  simpl. destruct Hin as [He | Hin].
  - inversion He; subst. unfold data_get. rewrite Hn. simpl. eauto.
  - destruct a as [f0|t0|]; try (exact (IH _ _ _ Hin Hn)).
    unfold data_get. destruct (dict_get (i_data i) (f_name f0)); simpl; [|eauto].
    exact (IH _ _ _ Hin Hn).
Qed.

Lemma tags_and_values_missing (i : Instance) (cd : list (string * ClassAttr)) :
  forall acc k t, In (k, CTag t) cd -> dict_get (i_data i) (t_name t) = None ->
  exists k', tags_and_values i cd acc = Err (KeyError k').
Proof.
  induction cd as [|[k0 a] cd IH]; intros acc k t Hin Hn; [contradiction|].
  simpl. destruct Hin as [He | Hin].
  - inversion He; subst. unfold data_get. rewrite Hn. simpl. eauto.
  - destruct a as [f0|t0|]; try (exact (IH _ _ _ Hin Hn)).
    unfold data_get. destruct (dict_get (i_data i) (t_name t0)); simpl; [|eauto].
    exact (IH _ _ _ Hin Hn).
Qed.

Lemma check_fields_nonnull_in (l : list (Field * PyVal)) (f : Field) (v : PyVal) :
  check_fields_nonnull l = Ok tt -> In (f, v) l -> f_null f = false -> v <> VNone.
Proof.
  induction l as [|[f0 v0] l IH]; simpl; [intros _ []|].
  destruct (negb (f_null f0) && is_none v0) eqn:E; [discriminate|].
  intros H [He | Hin] Hf.
  - inversion He; subst. rewrite Hf in E. destruct v; discriminate.
  - exact (IH H Hin Hf).
Qed.

End Serial.

(** [get_name] never rewrites the template: when it returns, it returns
    the class's [measurement_name] unchanged, and it returns exactly when
    every placeholder found in the template has a [str] value in the
    mapping (which must then not be [None]). *)
Theorem get_name_ok_iff (m : string) (tags : option dict) :
  (forall n, get_name m tags = Ok n -> n = m)
  /\ (get_name m tags = Ok m <->
      (forall t, In t (name_tags_of m) -> exists d s, tags = Some d /\ dict_get d t = Some (VStr s))).
Proof.
  split; [exact (get_name_returns_template m tags)|].
  rewrite <- NameFacts.get_name_loop_ok. unfold get_name.
  destruct (get_name_loop _ _) as [[]|e]; simpl; split; intro H;
    try reflexivity; discriminate.
Qed.

(** Every placeholder name that [re.findall('\((.*?)\)', ...)] extracts
    from a template occurs in it as ["(" + t + ")"], and contains neither
    [")"] nor a newline. *)
Theorem placeholder_occurs (m t : string) :
  In t (name_tags_of m) ->
  NameFacts.clean t = true /\ exists x b, m = x ++ "(" ++ t ++ ")" ++ b.
Proof.
  intro Hin.
  destruct (NameFacts.findall_go_occurs m None t ltac:(discriminate) Hin)
    as [Hc [Ho | [a [u [b [H _]]]]]]; [|discriminate].
  split; assumption.
Qed.

Lemma placeholder_occurs_witness :
  In "host" (name_tags_of "cpu_(host)_(dc)")
  /\ NameFacts.clean "host" = true
  /\ exists x b, "cpu_(host)_(dc)" = x ++ "(" ++ "host" ++ ")" ++ b.
Proof.
  assert (H : In "host" (name_tags_of "cpu_(host)_(dc)")) by (simpl; auto).
  split; [exact H|]. exact (placeholder_occurs _ _ H).
Defined.

Definition desc_null (d : Descriptor) : bool :=
  match d with DField f => f_null f | DTag t => t_null t end.

(** Assigning [None] through any descriptor, field of any class or tag:
    stored when the descriptor is nullable, [AssertionError] otherwise
    (type and option checks are skipped for [None]). *)
Theorem desc_set_none (d : Descriptor) (data : dict) :
  desc_set d data VNone =
  if desc_null d then Ok (dict_set data (desc_name d) VNone) else Err AssertionError.
Proof.
  destruct d as [[c n nl]|[n nl]]; [destruct c|]; simpl;
    unfold field_set, base_field_set, tag_set; simpl; destruct nl; reflexivity.
Qed.



Lemma str_of_map (strs : list string) :
  map FieldInit.str_of (map VStr strs) = strs.
Proof. induction strs as [|s strs IH]; simpl; [reflexivity | rewrite IH; reflexivity]. Qed.

Lemma existsb_string_in (s : string) (l : list string) :
  existsb (String.eqb s) l = true <-> In s l.
Proof.
  rewrite existsb_exists. split.
  - intros [x [Hx E]]. apply String.eqb_eq in E. subst. exact Hx.
  - intro H. exists s. split; [exact H | apply String.eqb_refl].
Qed.

Lemma existsb_Z_in (z : Z) (l : list Z) :
  existsb (Z.eqb z) l = true <-> In z l.
Proof.
  rewrite existsb_exists. split.
  - intros [x [Hx E]]. apply Z.eqb_eq in E. subst. exact Hx.
  - intro H. exists z. split; [exact H | apply Z.eqb_refl].
Qed.

(** [MultipleChoiceStringField(options, name, null)] is built exactly
    when [options] is a non-empty list of distinct strings or a non-empty
    set of strings; the field then has those strings as its options. *)
Theorem mc_string_init_ok (oa : FieldInit.OptionsArg) (n : string) (nl : bool) (f : Field) :
  FieldInit.mc_string_init oa n nl = Ok f <->
  exists strs, strs <> []
    /\ f = mkField (MultipleChoiceStringField strs) n nl
    /\ ((oa = FieldInit.OA_List (map VStr strs) /\ NoDup strs)
        \/ oa = FieldInit.OA_Set (map VStr strs)).
Proof.
  unfold FieldInit.mc_string_init.
  destruct oa as [|l|l|]; simpl;
    try (split; [discriminate|]; intros [strs [_ [_ [[H _]|H]]]]; discriminate);
    match goal with |- context [FieldInit.check_options ?a ?b ?c ?d ?e ?l] =>
      destruct (FieldInit.check_options a b c d e l) as [[]|err] eqn:E end; simpl.
  - apply FieldInit.check_options_ok in E. destruct E as [Hne [Hd Hall]].
    pose proof (FieldInit.all_str l Hall) as Hl. split.
    + intro H. inversion H; subst f. exists (map FieldInit.str_of l).
      split; [intro C; apply Hne; destruct l; [reflexivity|discriminate]|].
      split; [reflexivity|]. left. split; [f_equal; exact Hl|].
      apply FieldInit.str_dup. rewrite <- Hl. exact Hd.
    + intros [strs [_ [-> [[Ho _]|Ho]]]]; inversion Ho; subst l;
        rewrite str_of_map; reflexivity.
  - split; [discriminate|]. intros [strs [Hne [_ [[Ho Hnd]|Ho]]]]; inversion Ho; subst l.
    enough (FieldInit.check_options
              "Empty options passed for enum string field"
              "Duplicate values passed for options of multiple choice string field"
              "Invalid value in options of multiple choice string field, "
              (FieldInit.has_dup (map VStr strs)) isinstance_str (map VStr strs) = Ok tt)
      by congruence.
    apply FieldInit.check_options_ok. split; [destruct strs; [congruence|discriminate]|].
    split; [apply FieldInit.str_dup, Hnd|].
    clear. induction strs; simpl; auto.
  - apply FieldInit.check_options_ok in E. destruct E as [Hne [_ Hall]].
    pose proof (FieldInit.all_str l Hall) as Hl. split.
    + intro H. inversion H; subst f. exists (map FieldInit.str_of l).
      split; [intro C; apply Hne; destruct l; [reflexivity|discriminate]|].
      split; [reflexivity|]. right. f_equal; exact Hl.
    + intros [strs [_ [-> [[Ho _]|Ho]]]]; inversion Ho; subst l;
        rewrite str_of_map; reflexivity.
  - split; [discriminate|]. intros [strs [Hne [_ [[Ho Hnd]|Ho]]]]; inversion Ho; subst l.
    enough (FieldInit.check_options
              "Empty options passed for enum string field"
              "Duplicate values passed for options of multiple choice string field"
              "Invalid value in options of multiple choice string field, "
              false isinstance_str (map VStr strs) = Ok tt)
      by congruence.
    apply FieldInit.check_options_ok. split; [destruct strs; [congruence|discriminate]|].
    split; [reflexivity|].
    clear. induction strs; simpl; auto.
Qed.

(** [MultipleChoiceIntegerField(options, name, null)] is built exactly
    when [options] is a non-empty list or set of [int]s ([bool]s
    included), pairwise unequal as numbers for a list; the options are
    their integer values ([True] counts as [1]). *)
Theorem mc_int_init_ok (oa : FieldInit.OptionsArg) (n : string) (nl : bool) (f : Field) :
  FieldInit.mc_int_init oa n nl = Ok f <->
  exists l, l <> [] /\ forallb isinstance_int l = true
    /\ f = mkField (MultipleChoiceIntegerField (map FieldInit.int_of l)) n nl
    /\ ((oa = FieldInit.OA_List l /\ NoDup (map FieldInit.int_of l))
        \/ oa = FieldInit.OA_Set l).
Proof.
  unfold FieldInit.mc_int_init.
  destruct oa as [|l|l|]; simpl;
    try (split; [discriminate|]; intros [l [_ [_ [_ [[H _]|H]]]]]; discriminate);
    match goal with |- context [FieldInit.check_options ?a ?b ?c ?d ?e ?l] =>
      destruct (FieldInit.check_options a b c d e l) as [[]|err] eqn:E end; simpl.
  - apply FieldInit.check_options_ok in E. destruct E as [Hne [Hd Hall]]. split.
    + intro H. inversion H; subst f. exists l.
      split; [exact Hne|]. split; [exact Hall|]. split; [reflexivity|].
      left. split; [reflexivity|]. apply (FieldInit.all_int l Hall), Hd.
    + intros [l' [_ [_ [-> [[Ho _]|Ho]]]]]; inversion Ho; subst l'; reflexivity.
  - split; [discriminate|]. intros [l' [Hne [Hall [_ [[Ho Hnd]|Ho]]]]]; inversion Ho; subst l'.
    enough (FieldInit.check_options
              "Empty options passed for multiple choice integer field"
              "Duplicate values passed for options of multiple choice integer field"
              "Invalid value in options of multiple choice integer field, "
              (FieldInit.has_dup l) isinstance_int l = Ok tt) by congruence.
    apply FieldInit.check_options_ok. split; [exact Hne|].
    split; [apply (FieldInit.all_int l Hall), Hnd | exact Hall].
  - apply FieldInit.check_options_ok in E. destruct E as [Hne [_ Hall]]. split.
    + intro H. inversion H; subst f. exists l.
      split; [exact Hne|]. split; [exact Hall|]. split; [reflexivity|]. right. reflexivity.
    + intros [l' [_ [_ [-> [[Ho _]|Ho]]]]]; inversion Ho; subst l'; reflexivity.
  - split; [discriminate|]. intros [l' [Hne [Hall [_ [[Ho Hnd]|Ho]]]]]; inversion Ho; subst l'.
    enough (FieldInit.check_options
              "Empty options passed for multiple choice integer field"
              "Duplicate values passed for options of multiple choice integer field"
              "Invalid value in options of multiple choice integer field, "
              false isinstance_int l = Ok tt) by congruence.
    apply FieldInit.check_options_ok. split; [exact Hne|]. split; [reflexivity | exact Hall].
Qed.

(** [EnumStringField(enum)] and [EnumIntegerField(enum)] are built exactly
    when [enum] is an [Enum] class whose member values are non-empty,
    pairwise distinct and all [str] (resp. all [int]); the options are
    those values. *)
Theorem enum_field_init_ok (e : FieldInit.EnumArg) (n : string) (nl : bool) (f : Field) :
  (FieldInit.enum_string_init e n nl = Ok f <->
   exists strs, strs <> [] /\ NoDup strs
     /\ e = FieldInit.EA_Enum (map VStr strs)
     /\ f = mkField (EnumStringField strs) n nl)
  /\ (FieldInit.enum_int_init e n nl = Ok f <->
   exists l, l <> [] /\ forallb isinstance_int l = true /\ NoDup (map FieldInit.int_of l)
     /\ e = FieldInit.EA_Enum l
     /\ f = mkField (EnumIntegerField (map FieldInit.int_of l)) n nl).
Proof.
  unfold FieldInit.enum_string_init, FieldInit.enum_int_init.
  destruct e as [| | |l]; simpl;
    try (split; split; [discriminate| |discriminate|];
         [intros [x [_ [_ [H _]]]] | intros [x [_ [_ [_ [H _]]]]]]; discriminate).
  split.
  - match goal with |- context [FieldInit.check_options ?a ?b ?c ?d ?e ?l] =>
      destruct (FieldInit.check_options a b c d e l) as [[]|err] eqn:E end; simpl.
    + apply FieldInit.check_options_ok in E. destruct E as [Hne [Hd Hall]].
      pose proof (FieldInit.all_str l Hall) as Hl. split.
      * intro H. inversion H; subst f. exists (map FieldInit.str_of l).
        split; [intro C; apply Hne; destruct l; [reflexivity|discriminate]|].
        split; [apply FieldInit.str_dup; rewrite <- Hl; exact Hd|].
        split; [f_equal; exact Hl | reflexivity].
      * intros [strs [_ [_ [Ho ->]]]]. inversion Ho; subst l. rewrite str_of_map. reflexivity.
    + split; [discriminate|]. intros [strs [Hne [Hnd [Ho _]]]]. inversion Ho; subst l.
      enough (FieldInit.check_options
                "Enum with no values for enum string field"
                "Duplicate values passed for options of enum string field"
                "Invalid value in enum string field, "
                (FieldInit.has_dup (map VStr strs)) isinstance_str (map VStr strs) = Ok tt)
        by congruence.
      apply FieldInit.check_options_ok. split; [destruct strs; [congruence|discriminate]|].
      split; [apply FieldInit.str_dup, Hnd|].
      clear. induction strs; simpl; auto.
  - match goal with |- context [FieldInit.check_options ?a ?b ?c ?d ?e ?l] =>
      destruct (FieldInit.check_options a b c d e l) as [[]|err] eqn:E end; simpl.
    + apply FieldInit.check_options_ok in E. destruct E as [Hne [Hd Hall]]. split.
      * intro H. inversion H; subst f. exists l.
        split; [exact Hne|]. split; [exact Hall|].
        split; [apply (FieldInit.all_int l Hall), Hd|]. split; reflexivity.
      * intros [l' [_ [_ [_ [Ho ->]]]]]. inversion Ho; subst l'. reflexivity.
    + split; [discriminate|]. intros [l' [Hne [Hall [Hnd [Ho _]]]]]. inversion Ho; subst l'.
      enough (FieldInit.check_options
                "Enum with no values passed for enum integer field"
                "Duplicate values passed for options of enum integer field"
                "Invalid value in enum integer field, "
                (FieldInit.has_dup l) isinstance_int l = Ok tt) by congruence.
      apply FieldInit.check_options_ok. split; [exact Hne|].
      split; [apply (FieldInit.all_int l Hall), Hnd | exact Hall].
Qed.

(** A non-[None] value assigned through a [MultipleChoiceStringField] or
    [EnumStringField] is stored exactly when it is a [str] among the
    options; a non-[str] raises [TypeError], a [str] outside the options
    [ValueError]. *)
Theorem option_string_field_set (c : FieldClass) (opts : list string) (n : string)
    (nl : bool) (data : dict) (v : PyVal) :
  (c = MultipleChoiceStringField opts \/ c = EnumStringField opts) ->
  v <> VNone ->
  field_set (mkField c n nl) data v =
  match v with
  | VStr s => if existsb (String.eqb s) opts then Ok (dict_set data n v) else Err ValueError
  | _ => Err TypeError
  end
  /\ (is_err (field_set (mkField c n nl) data v) = false <->
      exists s, v = VStr s /\ In s opts).
Proof.
  intros Hc Hv.
  assert (H : field_set (mkField c n nl) data v =
    match v with
    | VStr s => if existsb (String.eqb s) opts then Ok (dict_set data n v) else Err ValueError
    | _ => Err TypeError
    end).
  { destruct Hc as [-> | ->]; unfold field_set, base_field_set; simpl;
      destruct v; simpl; try congruence; try reflexivity;
      destruct (existsb _ _); simpl; try destruct nl; reflexivity. }
  split; [exact H|]. rewrite H. destruct v; simpl;
    try (split; [discriminate|]; intros [s' [Hs _]]; discriminate).
  destruct (existsb (String.eqb s) opts) eqn:E; simpl.
  - split; [intros _; exists s; split; [reflexivity|]; apply existsb_string_in, E | reflexivity].
  - split; [discriminate|]. intros [s' [Hs Hin]]. inversion Hs; subst s'.
    apply existsb_string_in in Hin. congruence.
Qed.

Lemma option_string_field_set_witness :
  field_set (mkField (EnumStringField ["eu"; "us"]) "dc" false) [] (VStr "ap")
    = Err ValueError.
Proof.
  destruct (option_string_field_set (EnumStringField ["eu"; "us"]) ["eu"; "us"] "dc" false []
              (VStr "ap") (or_intror eq_refl) ltac:(discriminate)) as [H _].
  exact H.
Defined.

(** A non-[None] value assigned through a [MultipleChoiceIntegerField] or
    [EnumIntegerField] is stored exactly when it is an [int] (a [bool]
    counts, as [0] or [1]) whose value is among the options; anything else
    raises [TypeError], an [int] outside the options [ValueError]. *)
Theorem option_int_field_set (c : FieldClass) (opts : list Z) (n : string)
    (nl : bool) (data : dict) (v : PyVal) :
  (c = MultipleChoiceIntegerField opts \/ c = EnumIntegerField opts) ->
  v <> VNone ->
  field_set (mkField c n nl) data v =
  (if negb (isinstance_int v) then Err TypeError
   else if existsb (Z.eqb (FieldInit.int_of v)) opts then Ok (dict_set data n v)
   else Err ValueError)
  /\ (is_err (field_set (mkField c n nl) data v) = false <->
      isinstance_int v = true /\ In (FieldInit.int_of v) opts).
Proof.
  intros Hc Hv.
  assert (H : field_set (mkField c n nl) data v =
    (if negb (isinstance_int v) then Err TypeError
     else if existsb (Z.eqb (FieldInit.int_of v)) opts then Ok (dict_set data n v)
     else Err ValueError)).
  { destruct Hc as [-> | ->]; unfold field_set, base_field_set; simpl;
      destruct v; simpl; try congruence; try reflexivity;
      destruct (existsb _ _); simpl; try destruct nl; reflexivity. }
  split; [exact H|]. rewrite H. destruct (isinstance_int v); simpl;
    [|split; [discriminate | intros [C _]; discriminate]].
  destruct (existsb (Z.eqb (FieldInit.int_of v)) opts) eqn:E; simpl.
  - split; [intros _; split; [reflexivity | apply existsb_Z_in, E] | reflexivity].
  - split; [discriminate|]. intros [_ Hin]. apply existsb_Z_in in Hin. congruence.
Qed.

Lemma option_int_field_set_witness :
  is_err (field_set (mkField (MultipleChoiceIntegerField [1; 5]) "lvl" true) [] (VBool true))
    = false.
Proof.
  destruct (option_int_field_set (MultipleChoiceIntegerField [1; 5]) [1; 5] "lvl" true []
              (VBool true) (or_introl eq_refl) ltac:(discriminate)) as [_ [_ H]].
  apply H. split; [reflexivity | simpl; auto].
Defined.

(** A serialised point carries the instance unchanged: the measurement is
    the class's template, the time is [str(time_point)], the ["fields"]
    dict maps exactly the declared field names to their stored values and
    the ["tags"] dict exactly the declared tag names to theirs, and no
    non-nullable field is sent as [None]. *)
Theorem cli_format_roundtrip (py_str : PyVal -> string) (i : Instance) (w : WireRecord) :
  get_cli_format py_str i = Ok w ->
  w_measurement w = measurement_name (i_cls i)
  /\ w_time w = py_str (i_time_point i)
  /\ (forall k, dict_get (w_fields w) k =
        if existsb (String.eqb k) (Serial.get_field_names (i_cls i))
        then dict_get (i_data i) k else None)
  /\ (forall k, dict_get (w_tags w) k =
        if existsb (String.eqb k) (Serial.get_tag_names (i_cls i))
        then dict_get (i_data i) k else None)
  /\ (forall k f, In (k, CField f) (class_dict (i_cls i)) -> f_null f = false ->
        dict_get (w_fields w) (f_name f) <> Some VNone).
Proof.
  unfold get_cli_format.
  destruct (fields_and_values i _ []) as [fv|] eqn:Efv; simpl; [|discriminate].
  destruct (check_fields_nonnull fv) as [[]|] eqn:Ecf; simpl; [|discriminate].
  destruct (tags_and_values i _ []) as [tv|]; simpl; [|discriminate].
  destruct (check_tags_nonnull tv) as [[]|]; simpl; [|discriminate].
  destruct (tag_values_dict i _ []) as [td|] eqn:Etd; simpl; [|discriminate].
  destruct (get_name _ (Some td)) as [mn|] eqn:Emn; simpl; [|discriminate].
  destruct (field_values_dict i _ []) as [fd|] eqn:Efd; simpl; [|discriminate].
  intro H. inversion H; subst w; simpl. clear H.
  assert (Hf : forall k, dict_get fd k =
            if existsb (String.eqb k) (Serial.get_field_names (i_cls i))
            then dict_get (i_data i) k else None).
  { intro k. rewrite (Serial.field_values_dict_get i _ [] fd k Efd).
    unfold Serial.get_field_names. destruct (existsb _ _); reflexivity. }
  split; [exact (get_name_returns_template _ _ _ Emn)|].
  split; [reflexivity|]. split; [exact Hf|].
  split.
  - intro k. rewrite (Serial.tag_values_dict_get i _ [] td k Etd).
    unfold Serial.get_tag_names. destruct (existsb _ _); reflexivity.
  - intros k f Hin Hnl.
    destruct (Serial.fields_and_values_in i _ [] fv k f Efv Hin) as [v [Hv Hinv]].
    assert (Hfd : dict_get fd (f_name f) = Some v).
    { rewrite Hf, <- Hv. unfold Serial.get_field_names.
      replace (existsb (String.eqb (f_name f)) (Serial.get_field_names_of (class_dict (i_cls i))))
        with true; [reflexivity|].
      symmetry. apply existsb_string_in. clear -Hin.
      induction (class_dict (i_cls i)) as [|[k0 a] cd IH]; [contradiction|].
      destruct Hin as [He|Hin]; [inversion He; subst; simpl; auto|].
      destruct a; simpl; auto. }
    rewrite Hfd. intro C. inversion C; subst v.
    exact (Serial.check_fields_nonnull_in fv f VNone Ecf Hinv Hnl eq_refl).
Qed.

Definition host_load_class : MClass :=
  mkMClass "cpu_load"
    [("load", CField (mkField FloatField "load" false)); ("host", CTag (mkTag "host" true))].

Lemma cli_format_roundtrip_witness :
  exists w, get_cli_format (fun _ => "2020-01-01 00:00:00")
              (mkInstance host_load_class (VDatetime 0) [("load", VFloat 7); ("host", VStr "a1")])
            = Ok w
  /\ dict_get (w_fields w) "host" = None.
Proof.
  eexists. split; [reflexivity|].
  exact (proj1 (proj2 (proj2 (cli_format_roundtrip (fun _ => "2020-01-01 00:00:00")
    (mkInstance host_load_class (VDatetime 0) [("load", VFloat 7); ("host", VStr "a1")]) _ eq_refl)))
    "host").
Defined.

(** An instance with no stored value for a declared field or tag cannot be
    serialised; a missing field raises [KeyError].  This is the case of
    every instance built without keyword arguments for a class (built by
    [MeasurementMeta.__new__]) that declares a field or a tag under a name
    other than [time_point]: [cls(t)] stores nothing else in [_data]. *)
Theorem cli_format_missing_value (py_str : PyVal -> string) :
  (forall (i : Instance) (k : string) (a : ClassAttr),
     In (k, a) (class_dict (i_cls i)) ->
     match a with
     | CField f => dict_get (i_data i) (f_name f) = None
     | CTag t => dict_get (i_data i) (t_name t) = None
     | COther => False
     end ->
     is_err (get_cli_format py_str i) = true
     /\ (forall f, a = CField f -> exists k', get_cli_format py_str i = Err (KeyError k')))
  /\ (forall cls tp inst k a,
        class_wf cls = true -> In (k, a) (class_dict cls) -> a <> COther ->
        k <> "time_point" -> my_custom_init cls tp [] = Ok inst ->
        is_err (get_cli_format py_str inst) = true).
Proof.
  assert (P1 : forall (i : Instance) (k : string) (a : ClassAttr),
     In (k, a) (class_dict (i_cls i)) ->
     match a with
     | CField f => dict_get (i_data i) (f_name f) = None
     | CTag t => dict_get (i_data i) (t_name t) = None
     | COther => False
     end ->
     is_err (get_cli_format py_str i) = true
     /\ (forall f, a = CField f -> exists k', get_cli_format py_str i = Err (KeyError k'))).
  { intros i k a Hin Ha. unfold get_cli_format.
    destruct a as [f|t|]; [| |contradiction].
    - destruct (Serial.fields_and_values_missing i _ [] k f Hin Ha) as [k' Hk].
      rewrite Hk. simpl. split; [reflexivity|]. intros f' _. eauto.
    - split; [|intros f' C; discriminate].
      destruct (fields_and_values i _ []) as [fv|]; simpl; [|reflexivity].
      destruct (check_fields_nonnull fv) as [[]|]; simpl; [|reflexivity].
      destruct (Serial.tags_and_values_missing i _ [] k t Hin Ha) as [k' Hk].
      rewrite Hk. reflexivity. }
  split; [exact P1|].
  intros cls tp inst k a Hw Hin Ha Hk Hi.
  destruct (Init.init_no_kwargs cls tp inst Hw Hi) as [Hc Hd].
  pose proof (proj1 (forallb_forall _ _) Hw (k, a) Hin) as He.
  unfold entry_wf in He; simpl in He.
  subst cls. apply (P1 inst k a Hin).
  destruct a as [f|t|]; [| |congruence];
    apply String.eqb_eq in He; rewrite He; exact (Hd k Hk).
Qed.

Lemma cli_format_missing_value_witness :
  my_custom_init host_load_class (VDatetime 0) [] = Ok (mkInstance host_load_class (VDatetime 0) [])
  /\ (exists k', get_cli_format (fun _ => "") (mkInstance host_load_class (VDatetime 0) [])
                = Err (KeyError k'))
  /\ is_err (get_cli_format (fun _ => "") (mkInstance host_load_class (VDatetime 0) [])) = true.
Proof.
  split; [reflexivity|]. split.
  - exact (proj2 (proj1 (cli_format_missing_value (fun _ => ""))
      (mkInstance host_load_class (VDatetime 0) []) "load" (CField (mkField FloatField "load" false))
      (or_introl eq_refl) eq_refl) _ eq_refl).
  - exact (proj2 (cli_format_missing_value (fun _ => "")) host_load_class (VDatetime 0)
      (mkInstance host_load_class (VDatetime 0) []) "load" (CField (mkField FloatField "load" false))
      eq_refl (or_introl eq_refl) ltac:(discriminate) ltac:(discriminate) eq_refl).
Defined.

(** [save_points] is all or nothing: either every item serialises and one
    write carries all of them, in order, or the first failing item's
    exception is raised and nothing is written. *)
Theorem save_points_all_or_nothing (py_str : PyVal -> string) (items : list Instance) :
  (exists ws, Client.save_points py_str items = (Ok tt, [Client.RWrite ws])
     /\ Forall2 (fun i w => get_cli_format py_str i = Ok w) items ws)
  \/ (exists e pre i post, Client.save_points py_str items = (Err e, [])
     /\ items = app pre (i :: post)
     /\ Forall (fun j => is_err (get_cli_format py_str j) = false) pre
     /\ get_cli_format py_str i = Err e).
Proof.
  unfold Client.save_points.
  assert (G : forall l, (exists ws, Client.cli_formats py_str l = Ok ws
                           /\ Forall2 (fun i w => get_cli_format py_str i = Ok w) l ws)
                        \/ (exists e pre i post, Client.cli_formats py_str l = Err e
                           /\ l = app pre (i :: post)
                           /\ Forall (fun j => is_err (get_cli_format py_str j) = false) pre
                           /\ get_cli_format py_str i = Err e)).
  { induction l as [|j l IH]; simpl.
    - left. exists []. split; [reflexivity | constructor].
    - destruct (get_cli_format py_str j) as [w|e] eqn:Ej; simpl.
      + destruct IH as [[ws [Hws HF]] | [e [pre [i [post [He [Hl [Hpre Hie]]]]]]]].
        * left. exists (w :: ws). rewrite Hws. split; [reflexivity | constructor; assumption].
        * right. exists e, (j :: pre), i, post. rewrite He. subst l.
          split; [reflexivity|]. split; [reflexivity|]. split; [|exact Hie].
          constructor; [rewrite Ej; reflexivity | exact Hpre].
      + right. exists e, [], j, l. repeat split; [constructor | exact Ej]. }
  destruct (G items) as [[ws [H HF]] | [e [pre [i [post [H Hi]]]]]]; rewrite H.
  - left. exists ws. auto.
  - right. exists e, pre, i, post. auto.
Qed.

(** ** The query builder: further properties *)

Lemma aggregate_field_alias (m : AggregationMode) (f : string) :
  aggregate_field m f = get_result_field_name m f
  \/ (m <> AM_NONE
      /\ aggregate_field m f = agg_get_str m ++ "(" ++ f ++ ") AS " ++ get_result_field_name m f).
Proof. destruct m; [left | right; split; [discriminate | reflexivity] ..]; reflexivity. Qed.

(** The select list and the returned column names of
    [get_fields_as_series] correspond one to one: each select item is
    either the column name itself or ["<fn>(<field>) AS <column>"]. *)
Theorem aggregation_items_aligned (cls : MClass)
    (fas : list (string * option (list AggregationMode))) (props names : list string) :
  Client.aggregation_items cls fas = Ok (props, names) ->
  Forall2 (fun p n => p = n
             \/ exists m f, m <> AM_NONE /\ p = agg_get_str m ++ "(" ++ f ++ ") AS " ++ n)
          props names.
Proof.
  revert props names. induction fas as [|[fn ms] fas IH]; intros props names H; simpl in H.
  - inversion H; constructor.
  - destruct (negb (Client.has_field cls fn)); [discriminate|].
    destruct (Client.aggregation_items cls fas) as [[ps ns]|]; simpl in H; [|discriminate].
    inversion H; subst. simpl. apply Forall2_app; [|exact (IH _ _ eq_refl)].
    destruct ms as [[|m ms]|].
    + repeat constructor.
    + simpl. constructor.
      * destruct (aggregate_field_alias m fn) as [E | [Hm E]]; [left; exact E|].
        right. exists m, fn. auto.
      * clear. induction ms as [|m ms IH]; simpl; constructor; [|exact IH].
        destruct (aggregate_field_alias m fn) as [E | [Hm E]]; [left; exact E|].
        right. exists m, fn. auto.
    + repeat constructor.
Qed.

Lemma aggregation_items_aligned_witness :
  Client.aggregation_items host_load_class [("load", Some [AM_MEAN; AM_NONE])]
    = Ok (["mean(load) AS mean_load"; "load"], ["mean_load"; "load"])
  /\ Forall2 (fun p n => p = n
       \/ exists m f, m <> AM_NONE /\ p = agg_get_str m ++ "(" ++ f ++ ") AS " ++ n)
     ["mean(load) AS mean_load"; "load"] ["mean_load"; "load"].
Proof.
  split; [reflexivity|].
  exact (aggregation_items_aligned host_load_class [("load", Some [AM_MEAN; AM_NONE])] _ _ eq_refl).
Defined.

(** The aggregation loop fails exactly when one of the requested names is
    not the name of a declared field. *)
Theorem aggregation_items_fails_iff (cls : MClass)
    (fas : list (string * option (list AggregationMode))) :
  is_err (Client.aggregation_items cls fas) = true <->
  exists fn ms, In (fn, ms) fas /\ Client.has_field cls fn = false.
Proof.
  induction fas as [|[fn ms] fas IH]; simpl.
  - split; [discriminate | intros [x [y [[] _]]]].
  - destruct (Client.has_field cls fn) eqn:E; simpl.
    + destruct (Client.aggregation_items cls fas) as [pr|e]; simpl.
      * split; [discriminate|]. intros [fn' [ms' [[He|Hin] Hf]]].
        -- inversion He; subst. congruence.
        -- assert (C : is_err (Ok pr) = true) by (apply IH; eauto). discriminate.
      * split; [|reflexivity]. intros _.
        destruct (proj1 IH eq_refl) as [fn' [ms' [Hin Hf]]]. eauto.
    + split; [intros _; exists fn, ms; auto | reflexivity].
Qed.

(** [get_fields_as_series] with [field_aggregations] [None] or empty
    raises before any other check (fill arguments, interval, name
    resolution) and sends nothing. *)
Theorem series_missing_aggregations (rfc3339_format : Z -> string) (cls : MClass)
    (fa : option (list (string * option (list AggregationMode))))
    (tags : option (list (string * string))) (g : option string)
    (fm : option Client.FillMode) (fn : option Z) (tr : option Client.TimeRange)
    (lim : option Z) :
  fa = None \/ fa = Some [] ->
  Client.get_fields_as_series rfc3339_format cls fa tags g fm fn tr lim
  = (Err (GenericException "Null or invalid field aggregations"), []).
Proof. intros [-> | ->]; reflexivity. Qed.

Lemma series_missing_aggregations_witness :
  Client.get_fields_as_series (fun _ => "") (mkMClass "cpu_(host)" []) (Some []) None
    (Some "0h") (Some Client.FM_NUMBER) None None None
  = (Err (GenericException "Null or invalid field aggregations"), []).
Proof. apply series_missing_aggregations. right. reflexivity. Defined.

(** With consistent fill arguments, an interval the regex refuses raises
    [AssertionError] before name resolution and sends nothing. *)
Theorem series_bad_group_by (rfc3339_format : Z -> string) (cls : MClass)
    (fa0 : string * option (list AggregationMode))
    (fas : list (string * option (list AggregationMode)))
    (tags : option (list (string * string))) (g : string)
    (fm : option Client.FillMode) (fn : option Z) (tr : option Client.TimeRange)
    (lim : option Z) :
  Client.fill_check fm fn = Ok tt ->
  Client.group_by_regex_match g = false ->
  Client.get_fields_as_series rfc3339_format cls (Some (fa0 :: fas)) tags (Some g) fm fn tr lim
  = (Err AssertionError, []).
Proof.
  intros Hf Hg. unfold Client.get_fields_as_series, Client.get_fields_as_series_query.
  simpl. rewrite Hf. simpl. rewrite Hg. reflexivity.
Qed.

Lemma series_bad_group_by_witness :
  Client.get_fields_as_series (fun _ => "") (mkMClass "cpu_(host)" []) (Some [("x", None)]) None
    (Some "10") None None None None
  = (Err AssertionError, []).
Proof. apply series_bad_group_by; vm_compute; reflexivity. Defined.

Lemma list_ascii_of_string_app' (a b : string) :
  list_ascii_of_string (a ++ b) = app (list_ascii_of_string a) (list_ascii_of_string b).
Proof. induction a as [|c a IH]; simpl; [reflexivity | rewrite IH; reflexivity]. Qed.

Lemma string_get_last (s : string) (c : ascii) :
  String.get (String.length (s ++ String c "") - 1) (s ++ String c "") = Some c.
Proof.
  assert (L : forall x, String.length (x ++ String c "") = S (String.length x)).
  { induction x as [|d x IH]; simpl; [reflexivity | rewrite IH; reflexivity]. }
  rewrite L. simpl. rewrite Nat.sub_0_r.
  induction s as [|d s IH]; simpl; [reflexivity | exact IH].
Qed.

(** An interval accepted by the grammar is still accepted with a trailing
    newline ([$] matches before it), so the assertion lets it through; the
    window alignment then cannot read its unit: [CENTER] and [END] raise
    for every window start. *)
Theorem group_by_trailing_newline (g : string) (t : Z) :
  Window.grammar_ok g = true ->
  Client.group_by_regex_match (g ++ String (ascii_of_nat 10) "") = true
  /\ is_err (Window.get_time_point_of_window Window.CENTER t (g ++ String (ascii_of_nat 10) "")) = true
  /\ is_err (Window.get_time_point_of_window Window.END t (g ++ String (ascii_of_nat 10) "")) = true.
Proof.
  intro Hg. split; [|split].
  - unfold Client.group_by_regex_match. apply orb_true_iff. right.
    rewrite list_ascii_of_string_app', rev_app_distr. simpl.
    rewrite rev_involutive, string_of_list_ascii_of_string. exact Hg.
  - unfold Window.get_time_point_of_window, Window.get_value_and_unit.
    rewrite string_get_last. destruct (Window.py_int _); reflexivity.
  - unfold Window.get_time_point_of_window, Window.get_value_and_unit.
    rewrite string_get_last. destruct (Window.py_int _); reflexivity.
Qed.

Lemma group_by_trailing_newline_witness :
  Window.grammar_ok "15m" = true
  /\ Client.group_by_regex_match ("15m" ++ String (ascii_of_nat 10) "") = true.
Proof.
  split; [reflexivity|].
  exact (proj1 (group_by_trailing_newline "15m" 0 eq_refl)).
Defined.

(** Whenever the [END] point of a window exists, the [CENTER] point exists
    too and is exactly halfway between the window start and the [END]
    point (for a negative interval such as ["-2h"] the window runs
    backwards). *)
Theorem window_center_midpoint (t : Z) (g : string) (e : Z) :
  Window.valid_datetime t = true ->
  Window.get_time_point_of_window Window.END t g = Ok e ->
  exists c, Window.get_time_point_of_window Window.CENTER t g = Ok c
    /\ 2 * (c - t) = e - t
    /\ Z.min t e <= c <= Z.max t e.
Proof.
  intros Ht. unfold Window.get_time_point_of_window.
  destruct (Window.get_value_and_unit g) as [[v u]|]; cbn [bind_result];
    [|intro H; discriminate H].
  unfold Window.mk_timedelta, Window.dt_add.
  unfold Window.valid_datetime in *.
  apply andb_true_iff in Ht. destruct Ht as [Ht1 Ht2].
  apply Z.leb_le in Ht1. apply Z.leb_le in Ht2.
  assert (Hu : exists k, Window.unit_us u = 2 * k /\ 0 < k).
  { destruct u; [exists 500000 | exists 30000000 | exists 1800000000 | exists 43200000000];
      split; reflexivity. }
  destruct Hu as [k [Hu Hk]]. rewrite Hu.
  replace (v * (2 * k) / 2) with (v * k)
    by (replace (v * (2 * k)) with (v * k * 2) by ring; symmetry; apply Z.div_mul; lia).
  intro H.
  destruct ((- Window.max_days * Window.us_per_day <=? v * (2 * k))
            && (v * (2 * k) <? (Window.max_days + 1) * Window.us_per_day)) eqn:E1;
    cbn [bind_result] in H; [|discriminate H].
  destruct ((0 <=? t + v * (2 * k)) && (t + v * (2 * k) <=? Window.datetime_max)) eqn:E2;
    cbn [bind_result] in H; [|discriminate H].
  inversion H; subst e. clear H.
  apply andb_true_iff in E1. destruct E1 as [E1a E1b].
  apply Z.leb_le in E1a. apply Z.ltb_lt in E1b.
  apply andb_true_iff in E2. destruct E2 as [E2a E2b].
  apply Z.leb_le in E2a. apply Z.leb_le in E2b.
  assert (B1 : - Window.max_days * Window.us_per_day <= v * k).
  { unfold Window.max_days in *. destruct (Z.le_gt_cases 0 v); nia. }
  assert (B2 : v * k < (Window.max_days + 1) * Window.us_per_day).
  { unfold Window.max_days in *. destruct (Z.le_gt_cases 0 v); nia. }
  apply Z.leb_le in B1. apply Z.ltb_lt in B2. rewrite B1, B2. cbn [andb bind_result].
  assert (C1 : 0 <= t + v * k) by (destruct (Z.le_gt_cases 0 v); nia).
  assert (C2 : t + v * k <= Window.datetime_max) by (destruct (Z.le_gt_cases 0 v); nia).
  apply Z.leb_le in C1. apply Z.leb_le in C2. rewrite C1, C2. cbn [andb].
  exists (t + v * k). split; [reflexivity|]. split.
  { match goal with |- ?a = ?b =>
      change a with (2 * (t + v * k - t)); change b with (t + v * (2 * k) - t) end.
    ring. }
  match goal with |- ?a <= _ <= ?b =>
    change a with (Z.min t (t + v * (2 * k))); change b with (Z.max t (t + v * (2 * k))) end.
  destruct (Z.le_gt_cases 0 v); [rewrite Z.min_l, Z.max_r by nia | rewrite Z.min_r, Z.max_l by nia];
    nia.
Qed.

Lemma window_center_midpoint_witness :
  Window.get_time_point_of_window Window.END 0 "2h" = Ok 7200000000
  /\ Window.get_time_point_of_window Window.CENTER 0 "2h" = Ok 3600000000.
Proof.
  split; [reflexivity|].
  destruct (window_center_midpoint 0 "2h" 7200000000 eq_refl eq_refl) as [c [Hc [Hm _]]].
  rewrite Hc. f_equal. lia.
Defined.

(** [get_distinct_existing_tag_values] with a measurement class whose
    placeholders all have a value in [name_resolution_tags] sends one
    query naming the class's template as it is written (placeholders
    included) and the tag key in double quotes. *)
Theorem distinct_tag_values_query (tag : string) (cls : MClass)
    (nrt : option (list (string * string))) :
  (forall t, In t (name_tags_of (measurement_name cls)) ->
     exists ts, nrt = Some ts /\ In t (map fst ts)) ->
  Client.get_distinct_existing_tag_values tag (Some cls) nrt
  = (Ok ("show tag values from " ++ measurement_name cls ++ " with key = " ++ dq ++ tag ++ dq),
     [Client.RQuery ("show tag values from " ++ measurement_name cls ++ " with key = "
                     ++ dq ++ tag ++ dq)]).
Proof.
  intro H. unfold Client.get_distinct_existing_tag_values.
  assert (E : get_name (measurement_name cls) (option_map Client.tags_dict nrt)
              = Ok (measurement_name cls)).
  { unfold get_name.
    assert (L : get_name_loop (name_tags_of (measurement_name cls))
                  (option_map Client.tags_dict nrt) = Ok tt).
    { apply NameFacts.get_name_loop_ok. intros t Ht.
      destruct (H t Ht) as [ts [-> Hin]]. simpl. exists (Client.tags_dict ts).
      rewrite dict_get_tags_dict.
      destruct (find (fun kv => String.eqb t (fst kv)) ts) as [kv|] eqn:F.
      - exists (snd kv). split; reflexivity.
      - exfalso. apply in_map_iff in Hin. destruct Hin as [kv [Hk Hkv]].
        assert (C := find_none _ _ F kv Hkv). simpl in C. subst t.
        rewrite String.eqb_refl in C. discriminate. }
    rewrite L. reflexivity. }
  rewrite E. simpl. repeat rewrite str_app_assoc. reflexivity.
Qed.

Lemma distinct_tag_values_query_witness :
  Client.get_distinct_existing_tag_values "dc" (Some (mkMClass "cpu_(host)" []))
    (Some [("host", "a1")])
  = (Ok ("show tag values from cpu_(host) with key = " ++ dq ++ "dc" ++ dq),
     [Client.RQuery ("show tag values from cpu_(host) with key = " ++ dq ++ "dc" ++ dq)]).
Proof.
  apply (distinct_tag_values_query "dc" (mkMClass "cpu_(host)" []) (Some [("host", "a1")])).
  intros t Ht. simpl in Ht. destruct Ht as [<- | []].
  exists [("host", "a1")]. split; [reflexivity | simpl; auto].
Defined.

(** A day range whose next day lies beyond 9999-12-31, as the last
    representable day's does, makes [load_points] raise [OverflowError]
    while computing the next day's start, and nothing is sent, for every
    class whose measurement name resolves with the given tags. *)
Theorem day_range_last_day (rfc3339_format : Z -> string) (cls : MClass)
    (tags : option (list (string * string))) (d : Z) (lim : option Z) :
  is_err (get_name (measurement_name cls) (option_map Client.tags_dict tags)) = false ->
  Window.datetime_max < d + Window.us_per_day ->
  Client.load_points rfc3339_format cls tags (Some (Client.TRDay d)) lim
  = (Err OverflowError, []).
Proof.
  intros Hn Hd. unfold Client.load_points, Client.load_points_query.
  destruct (get_name (measurement_name cls) (option_map Client.tags_dict tags)) as [n|e];
    [|discriminate]. simpl.
  unfold Window.dt_add, Window.valid_datetime.
  replace (d + Window.us_per_day <=? Window.datetime_max) with false
    by (symmetry; apply Z.leb_gt; exact Hd).
  rewrite andb_false_r. reflexivity.
Qed.

Lemma day_range_last_day_witness :
  Window.valid_datetime ((Window.max_ordinal - 1) * Window.us_per_day) = true
  /\ Client.load_points (fun _ => "") (mkMClass "cpu_(host)" []) (Some [("host", "a1")])
       (Some (Client.TRDay ((Window.max_ordinal - 1) * Window.us_per_day))) None
     = (Err OverflowError, []).
Proof.
  split; [vm_compute; reflexivity|].
  apply day_range_last_day; vm_compute; reflexivity.
Defined.

Lemma cdict_get_set_same (cd : list (string * ClassAttr)) (k : string) (a : ClassAttr) :
  cdict_get (cdict_set cd k a) k = Some a.
Proof.
  induction cd as [|[k' a'] cd IH]; simpl; [rewrite String.eqb_refl; reflexivity|].
  destruct (String.eqb k k') eqn:E; simpl; rewrite E; [reflexivity | exact IH].
Qed.

(** [MeasurementMeta.__new__] puts every field and tag under its own
    [name] in the class dict, and the class's [__init__] is always the
    generated one: no descriptor survives under the key ["__init__"]. *)
Theorem meta_new_wf (default_name : string) (meta_name : option string)
    (attrs : list (string * BodyAttr)) :
  class_wf (meta_new default_name meta_name attrs) = true
  /\ class_desc (meta_new default_name meta_name attrs) "__init__" = None.
Proof.
  split.
  - unfold class_wf, meta_new. simpl.
    apply Init.cdict_set_wf; [|reflexivity].
    apply Init.meta_attrs_wf. reflexivity.
  - unfold class_desc, meta_new. simpl. rewrite cdict_get_set_same. reflexivity.
Qed.

(** A class name starting with an ASCII upper-case letter gets the same
    default measurement name as the name with that letter in lower case,
    whatever follows: the leading ["_"] the conversion produces for it is
    cut off. *)
Theorem pascal_name_like_camel (db : Utils.CharDb) (c : Z) (s : Utils.pystr) :
  Utils.ascii_agrees db -> Utils.is_ascii_upper c = true ->
  Utils.dromedary_to_underline db (c :: s)
  = Utils.dromedary_to_underline db ((c + 32) :: s).
Proof.
  intros Hdb Hu.
  destruct (Utils.upper_to_lower_flags db Hdb c Hu) as [Hnl [Hlo [Ha Hl]]].
  unfold Utils.dromedary_to_underline. cbn [Utils.d2u_join].
  rewrite Hnl, Hl, Ha, Hlo, andb_false_r. reflexivity.
Qed.

Lemma pascal_name_like_camel_witness :
  Utils.dromedary_to_underline Utils.sample_db (Utils.cps "CpuLoad") = Ok (Utils.cps "cpu_load")
  /\ Utils.dromedary_to_underline Utils.sample_db (Utils.cps "CpuLoad")
     = Utils.dromedary_to_underline Utils.sample_db (Utils.cps "cpuLoad").
Proof.
  split; [vm_compute; reflexivity|].
  exact (pascal_name_like_camel Utils.sample_db 67 (Utils.cps "puLoad")
           Utils.sample_db_agrees eq_refl).
Defined.
